(** * process_ble_data.honeycomb_io

    A shallow embedding of [process_ble_data/honeycomb_io.py]: the
    resolution of an environment, the retrieval of device assignments, the
    search for BLE datapoints and the joins that build the table returned
    to the caller.

    The Python functions raise exceptions and talk to a Honeycomb client.
    Both are kept: a computation returns either an exception or a value,
    together with the list of the queries it sent to the client.  The
    pandas calls the module makes are functions on a small model of a
    DataFrame; the three libraries the module imports and does not define
    (minimal_honeycomb, json, pandas.to_datetime) are parameters. *)

From Stdlib Require Import List String ZArith Bool Lia SpecFloat DecimalString.
Import ListNotations.
Open Scope string_scope.
Open Scope list_scope.

(** ** Exceptions and results *)

Inductive exn : Type :=
| ValueError (msg : string)
| KeyError (key : string)
| AttributeError (msg : string)
| TypeError (msg : string)
| ClientError (msg : string).

Definition result (A : Type) : Type := (exn + A)%type.

Definition Ok {A : Type} (a : A) : result A := inr a.
Definition Raise {A : Type} (e : exn) : result A := inl e.

Definition rbind {A B : Type} (r : result A) (f : A -> result B) : result B :=
  match r with
  | inl e => inl e
  | inr a => f a
  end.

Declare Scope result_scope.
Delimit Scope result_scope with result.
Notation "'let?' x ':=' r 'in' k" := (rbind r (fun x => k))
  (at level 10, x name, r at level 100, k at level 200) : result_scope.

(** [for x in l: ys.append(f x)], where [f] may raise. *)
Fixpoint for_each {A B : Type} (f : A -> result B) (l : list A) : result (list B) :=
  match l with
  | [] => Ok []
  | x :: l' =>
      match f x with
      | inl e => inl e
      | inr y =>
          match for_each f l' with
          | inl e => inl e
          | inr ys => inr (y :: ys)
          end
      end
  end.

(** [o.get(key)] on an object that may be [None]: Python raises
    AttributeError on [None.get]. *)
Definition get {A B : Type} (o : option A) (field : A -> B) : result B :=
  match o with
  | None => Raise (AttributeError "'NoneType' object has no attribute 'get'")
  | Some a => Ok (field a)
  end.

(** ** Objects returned by the service

    The dictionaries of a query answer have the keys the query asks for in
    [return_data]; a value the service leaves out reads as [None]. *)

Module Environment.
Record t : Type := Build { environment_id : option string }.
End Environment.

Module Device.
Record t : Type := Build {
  device_id : option string;
  part_number : option string;
  device_type : option string;
  name : option string;
  tag_id : option string;
  serial_number : option string
}.
End Device.

Module Assignment.
Record t : Type := Build {
  assignment_id : option string;
  start : option string;
  end_ : option string;
  assigned : option Device.t
}.
End Assignment.

Module Source.
Record t : Type := Build { assignment_id : option string }.
End Source.

Module File.
Record t : Type := Build { data : option string }.
End File.

Module Datapoint.
Record t : Type := Build {
  data_id : option string;
  timestamp : option string;
  source : option Source.t;
  file : option File.t
}.
End Datapoint.

(** The payload of a datapoint once [json.loads] has parsed it: the two
    keys the module reads.  [anchor_id] is [None] when the key is absent or
    null; [rssi] is the number [float] makes of the entry, [None] when the
    entry is absent or null. *)
Module Payload.
Record t : Type := Build {
  anchor_id : option string;
  rssi : option spec_float
}.
End Payload.

(** ** Cells

    What a DataFrame holds: a missing value (None, NaN or NaT), a string,
    an integer (the positions of a default index), a float or a timestamp. *)

Inductive cell : Type :=
| NaN
| Str (s : string)
| Int (z : Z)
| Float (f : spec_float)
| Timestamp (t : Z).

Definition cell_of (o : option string) : cell :=
  match o with
  | None => NaN
  | Some s => Str s
  end.

(** Equality of join keys.  pandas puts all missing keys in one group, so
    a missing key on the left matches a missing key on the right. *)
Definition cell_eqb (a b : cell) : bool :=
  match a, b with
  | NaN, NaN => true
  | Str s, Str t => String.eqb s t
  | Int x, Int y => Z.eqb x y
  | Float f, Float g => SFeqb f g
  | Timestamp t, Timestamp u => Z.eqb t u
  | _, _ => false
  end.

(** ** Queries *)

Inductive request_name : Type :=
| findEnvironments
| searchAssignments
| searchDatapoints.

Definition request_name_string (rn : request_name) : string :=
  match rn with
  | findEnvironments => "findEnvironments"
  | searchAssignments => "searchAssignments"
  | searchDatapoints => "searchDatapoints"
  end.

(** What a query of a given name returns. *)
Definition object_of (rn : request_name) : Type :=
  match rn with
  | findEnvironments => Environment.t
  | searchAssignments => Assignment.t
  | searchDatapoints => Datapoint.t
  end.

(** One entry of a query list: [{'field': f, 'operator': op, 'value': v}]
    or [{'field': f, 'operator': op, 'values': vs}]. *)
Inductive operand : Type :=
| value (v : string)
| values (vs : list cell).

Module Query.
Record t : Type := Build {
  field : string;
  operator : string;
  operand_ : operand
}.
End Query.

Inductive arguments : Type :=
| name_argument (type_ : string) (value_ : string)
| query_argument (type_ : string) (operator : string) (children : list Query.t).

#[local] Unset Elimination Schemes.
Inductive selection : Type :=
| leaf (name : string)
| nested (name : string) (sub : list selection).
#[local] Set Elimination Schemes.

Module Request.
Record t : Type := Build {
  name : request_name;
  args : arguments;
  return_data : list selection;
  id_field_name : string;
  chunk_size : option Z
}.
End Request.

(** ** The client

    [bulk_query] is the only method the module calls.  It may raise. *)
Record Client : Type := {
  bulk_query :
    forall (rn : request_name), arguments -> list selection -> string ->
      option Z -> result (list (object_of rn))
}.

Record credentials : Type := {
  uri : option string;
  token_uri : option string;
  audience : option string;
  client_id : option string;
  client_secret : option string
}.

(** A computation: what it raises or returns, and the queries it sent. *)
Definition M (A : Type) : Type := (result A * list Request.t)%type.

Definition ret {A : Type} (a : A) : M A := (Ok a, []).
Definition raise {A : Type} (e : exn) : M A := (Raise e, []).

Definition bind {A B : Type} (m : M A) (f : A -> M B) : M B :=
  match fst m with
  | inl e => (inl e, snd m)
  | inr a => (fst (f a), snd m ++ snd (f a))
  end.

Declare Scope io_scope.
Delimit Scope io_scope with io.
Notation "x <- m ;; k" := (bind m (fun x => k))
  (at level 100, m at next level, right associativity) : io_scope.

Definition lift {A : Type} (r : result A) : M A := (r, []).

Definition outcome {A : Type} (m : M A) : result A := fst m.
Definition queries {A : Type} (m : M A) : list Request.t := snd m.

(** [client.bulk_query(...)]: the query is sent, the answer returned. *)
Definition call_bulk_query (client : Client) (rn : request_name)
  (args : arguments) (return_data : list selection) (id_field_name : string)
  (chunk_size : option Z) : M (list (object_of rn)) :=
  (bulk_query client rn args return_data id_field_name chunk_size,
   [Request.Build rn args return_data id_field_name chunk_size]).

(** ** DataFrames

    A frame has a named index, named columns, and rows: the index entry of
    a row and its cells, one per column. *)

Record DataFrame : Type := {
  index_name : option string;
  columns : list string;
  rows : list (cell * list cell)
}.

Definition index (df : DataFrame) : list cell := map fst (rows df).

Fixpoint position (c : string) (cols : list string) : option nat :=
  match cols with
  | [] => None
  | c' :: cols' =>
      if String.eqb c c' then Some O
      else match position c cols' with
           | None => None
           | Some i => Some (S i)
           end
  end.

Fixpoint remove_nth {A : Type} (i : nat) (l : list A) : list A :=
  match l, i with
  | [], _ => []
  | _ :: l', O => l'
  | x :: l', S i' => x :: remove_nth i' l'
  end.

Fixpoint replace_nth {A : Type} (i : nat) (v : A) (l : list A) : list A :=
  match l, i with
  | [], _ => []
  | _ :: l', O => v :: l'
  | x :: l', S i' => x :: replace_nth i' v l'
  end.

(** The cell of a row in a named column; missing when the frame has no
    such column. *)
Definition cell_at (cols : list string) (c : string) (cells : list cell) : cell :=
  match position c cols with
  | None => NaN
  | Some i => nth i cells NaN
  end.

(** A Python dictionary with string keys, in insertion order. *)
Definition dict : Type := list (string * cell).

Definition dict_get (d : dict) (k : string) : cell :=
  match find (fun kv => String.eqb (fst kv) k) d with
  | None => NaN
  | Some kv => snd kv
  end.

Definition add_new (cols ks : list string) : list string :=
  fold_left
    (fun acc k => if existsb (String.eqb k) acc then acc else acc ++ [k])
    ks cols.

Fixpoint range_index {A : Type} (i : Z) (l : list A) : list (cell * A) :=
  match l with
  | [] => []
  | x :: l' => (Int i, x) :: range_index (i + 1) l'
  end.

(** [pd.DataFrame(data)] for a list of dictionaries: the columns are the
    keys in order of first appearance, the index counts from 0.  An empty
    list gives a frame without columns. *)
Definition DataFrame_of (data : list dict) : DataFrame :=
  let cols := fold_left (fun acc d => add_new acc (map fst d)) data [] in
  {| index_name := None;
     columns := cols;
     rows := range_index 0 (map (fun d => map (dict_get d) cols) data) |}.

(** [df[col]] *)
Definition getitem (df : DataFrame) (col : string) : result (list cell) :=
  match position col (columns df) with
  | None => Raise (KeyError col)
  | Some i => Ok (map (fun r => nth i (snd r) NaN) (rows df))
  end.

(** [df[col] = vals] *)
Definition setitem (df : DataFrame) (col : string) (vals : list cell)
  : result DataFrame :=
  if negb (Nat.eqb (List.length vals) (List.length (rows df))) then
    Raise (ValueError "Length of values does not match length of index")
  else
    match position col (columns df) with
    | Some i =>
        Ok {| index_name := index_name df;
              columns := columns df;
              rows := map (fun rv => (fst (fst rv), replace_nth i (snd rv) (snd (fst rv))))
                          (combine (rows df) vals) |}
    | None =>
        Ok {| index_name := index_name df;
              columns := columns df ++ [col];
              rows := map (fun rv => (fst (fst rv), snd (fst rv) ++ [snd rv]))
                          (combine (rows df) vals) |}
    end.

(** [df.set_index(col)] *)
Definition set_index (df : DataFrame) (col : string) : result DataFrame :=
  match position col (columns df) with
  | None => Raise (KeyError ("None of ['" ++ col ++ "'] are in the columns")%string)
  | Some i =>
      Ok {| index_name := Some col;
            columns := remove_nth i (columns df);
            rows := map (fun r => (nth i (snd r) NaN, remove_nth i (snd r))) (rows df) |}
  end.

(** [df.reset_index()] *)
Definition reset_index (df : DataFrame) : result DataFrame :=
  let name :=
    match index_name df with
    | None => "index"
    | Some n => n
    end in
  if existsb (String.eqb name) (columns df) then
    Raise (ValueError ("cannot insert " ++ name ++ ", already exists")%string)
  else
    Ok {| index_name := None;
          columns := name :: columns df;
          rows := range_index 0 (map (fun r => fst r :: snd r) (rows df)) |}.

Definition option_string_eqb (a b : option string) : bool :=
  match a, b with
  | None, None => true
  | Some s, Some t => String.eqb s t
  | _, _ => false
  end.

(** [pd.concat((df1, df2))]: the rows of both, over the union of their
    columns. *)
Definition concat (df1 df2 : DataFrame) : DataFrame :=
  let cols := add_new (columns df1) (columns df2) in
  let align (df : DataFrame) (r : cell * list cell) :=
    (fst r, map (fun c => cell_at (columns df) c (snd r)) cols) in
  {| index_name :=
       if option_string_eqb (index_name df1) (index_name df2)
       then index_name df1 else None;
     columns := cols;
     rows := map (align df1) (rows df1) ++ map (align df2) (rows df2) |}.

(** [df.join(other, on=col)]: a left join of the column [col] of [df]
    with the index of [other].  A row of [df] is repeated once for every
    row of [other] whose index entry equals its key, and kept once, with
    missing values, when there is none. *)
Definition join (df other : DataFrame) (on : string) : result DataFrame :=
  match position on (columns df) with
  | None => Raise (KeyError on)
  | Some i =>
      if existsb (fun c => existsb (String.eqb c) (columns df)) (columns other) then
        Raise (ValueError "columns overlap but no suffix specified")
      else
        Ok {| index_name := index_name df;
              columns := columns df ++ columns other;
              rows :=
                flat_map
                  (fun r =>
                     match filter (fun o => cell_eqb (fst o) (nth i (snd r) NaN))
                                  (rows other) with
                     | [] => [(fst r, snd r ++ repeat NaN (List.length (columns other)))]
                     | found => map (fun o => (fst r, snd r ++ snd o)) found
                     end)
                  (rows df) |}
  end.

(** [df.reindex(columns=cols)] *)
Definition reindex (df : DataFrame) (cols : list string) : DataFrame :=
  {| index_name := index_name df;
     columns := cols;
     rows := map (fun r => (fst r, map (fun c => cell_at (columns df) c (snd r)) cols))
                 (rows df) |}.

(** [index.unique().tolist()]: the entries in order of first appearance. *)
Fixpoint unique_from (seen l : list cell) : list cell :=
  match l with
  | [] => []
  | x :: l' =>
      if existsb (cell_eqb x) seen then unique_from seen l'
      else x :: unique_from (x :: seen) l'
  end.

Definition unique (l : list cell) : list cell := unique_from [] l.

(** ** The libraries the module imports *)

Record minimal_honeycomb : Type := {
  MinimalHoneycombClient : credentials -> Client;
  filter_assignments :
    list Assignment.t -> option Z -> option Z -> list Assignment.t;
  to_honeycomb_datetime : Z -> string
}.

Section honeycomb_io.

Variable mh : minimal_honeycomb.

(** [json.loads] on the payload of a datapoint. *)
Variable json_loads : string -> result Payload.t.

(** [pandas.to_datetime] on one entry of a column. *)
Variable to_datetime : cell -> result cell.

Open Scope io_scope.

(** [fetch_environment_id], lines 156-204. *)
Definition fetch_environment_id (environment_id environment_name : option string)
  (client : option Client) (creds : credentials) : M (option string) :=
  match environment_id with
  | Some id =>
      match environment_name with
      | Some _ =>
          raise (ValueError
            "If environment ID is specified, environment name cannot be specified")
      | None => ret (Some id)
      end
  | None =>
      match environment_name with
      | Some ename =>
          let client :=
            match client with
            | None => MinimalHoneycombClient mh creds
            | Some c => c
            end in
          result <- call_bulk_query client findEnvironments
                      (name_argument "String" ename)
                      [leaf "environment_id"] "environment_id" None ;;
          match result with
          | [] =>
              raise (ValueError ("No environments match environment name " ++ ename)%string)
          | env :: [] => ret (Environment.environment_id env)
          | _ :: _ :: _ =>
              raise (ValueError
                ("Multiple environments match environment name " ++ ename)%string)
          end
      | None => ret None
      end
  end.

Definition without_client_secret (creds : credentials) : credentials :=
  {| uri := uri creds;
     token_uri := token_uri creds;
     audience := audience creds;
     client_id := client_id creds;
     client_secret := None |}.

(** [search_objects], lines 347-383. *)
Definition search_objects (rn : request_name) (query_list : list Query.t)
  (return_data : list selection) (id_field_name : string) (chunk_size : Z)
  (client : option Client) (creds : credentials) : M (list (object_of rn)) :=
  let client :=
    match client with
    | None => MinimalHoneycombClient mh creds
    | Some c => c
    end in
  call_bulk_query client rn
    (query_argument "QueryExpression!" "AND" query_list)
    return_data id_field_name (Some chunk_size).

(** [search_ble_datapoints], lines 293-318.  The call to [search_objects]
    passes no [client_secret]. *)
Definition search_ble_datapoints (query_list : list Query.t)
  (return_data : list selection) (chunk_size : Z)
  (client : option Client) (creds : credentials) : M (list Datapoint.t) :=
  search_objects searchDatapoints query_list return_data "data_id" chunk_size
    client (without_client_secret creds).

(** [search_assignments], lines 320-345.  The call to [search_objects]
    passes no [client_secret]. *)
Definition search_assignments (query_list : list Query.t)
  (return_data : list selection) (chunk_size : Z)
  (client : option Client) (creds : credentials) : M (list Assignment.t) :=
  search_objects searchAssignments query_list return_data "assignment_id"
    chunk_size client (without_client_secret creds).

(** [x in device_types] *)
Definition in_device_types (x : option string) (device_types : list string) : bool :=
  match x with
  | None => false
  | Some s => existsb (String.eqb s) device_types
  end.

(** The test of line 266:
    [device_types is None or datum.get('assigned').get('device_type') in device_types]. *)
Definition device_type_requested (device_types : option (list string))
  (datum : Assignment.t) : result bool :=
  match device_types with
  | None => Ok true
  | Some dts =>
      (let? device_type := get (Assignment.assigned datum) Device.device_type in
       Ok (in_device_types device_type dts))%result
  end.

(** The dictionary of lines 267-275. *)
Definition assignment_dict (datum : Assignment.t) : result dict :=
  (let? device_id := get (Assignment.assigned datum) Device.device_id in
   let? device_type := get (Assignment.assigned datum) Device.device_type in
   let? name := get (Assignment.assigned datum) Device.name in
   let? part_number := get (Assignment.assigned datum) Device.part_number in
   let? serial_number := get (Assignment.assigned datum) Device.serial_number in
   let? tag_id := get (Assignment.assigned datum) Device.tag_id in
   Ok [("assignment_id", cell_of (Assignment.assignment_id datum));
       ("device_id", cell_of device_id);
       ("device_type", cell_of device_type);
       ("name", cell_of name);
       ("part_number", cell_of part_number);
       ("serial_number", cell_of serial_number);
       ("tag_id", cell_of tag_id)])%result.

(** The loop of lines 264-275. *)
Fixpoint collect_assignments (device_types : option (list string))
  (filtered_result : list Assignment.t) : result (list dict) :=
  match filtered_result with
  | [] => Ok []
  | datum :: rest =>
      (let? requested := device_type_requested device_types datum in
       if requested : bool then
         let? d := assignment_dict datum in
         let? data := collect_assignments device_types rest in
         Ok (d :: data)
       else collect_assignments device_types rest)%result
  end.

(** Lines 288-290: the prefix on the name of the index and of the columns. *)
Definition add_prefix (column_name_prefix : option string) (df : DataFrame)
  : result DataFrame :=
  match column_name_prefix with
  | None => Ok df
  | Some p =>
      match index_name df with
      | None =>
          Raise (TypeError "can only concatenate str (not 'NoneType') to str")
      | Some n =>
          Ok {| index_name := Some ((p ++ "_") ++ n)%string;
                columns := map (fun column_name => ((p ++ "_") ++ column_name)%string)
                               (columns df);
                rows := rows df |}
      end
  end.

(** Lines 264-291 of [fetch_device_assignments]: from the assignments that
    passed the time filter to the table. *)
Definition assignments_table (filtered_result : list Assignment.t)
  (device_types : option (list string)) (column_name_prefix : option string)
  : result DataFrame :=
  (let? data := collect_assignments device_types filtered_result in
   let assignments_df := DataFrame_of data in
   let? assignments_df := set_index assignments_df "assignment_id" in
   let return_columns :=
     ["device_id"; "device_type"; "name"; "part_number"; "serial_number"; "tag_id"] in
   let assignments_df := reindex assignments_df return_columns in
   add_prefix column_name_prefix assignments_df)%result.

(** The query list of lines 221-231 and the fields of lines 232-246. *)
Definition assignment_query_list (environment_id : string) : list Query.t :=
  [Query.Build "environment" "EQ" (value environment_id);
   Query.Build "assigned_type" "EQ" (value "DEVICE")].

Definition assignment_return_data : list selection :=
  [leaf "assignment_id"; leaf "start"; leaf "end";
   nested "assigned"
     [nested "... on Device"
        [leaf "device_id"; leaf "part_number"; leaf "device_type";
         leaf "name"; leaf "tag_id"; leaf "serial_number"]]].

(** [fetch_device_assignments], lines 206-291.  The call to
    [search_assignments] passes no [client_secret]. *)
Definition fetch_device_assignments (environment_id : string)
  (start end_ : option Z) (device_types : option (list string))
  (column_name_prefix : option string) (chunk_size : Z)
  (client : option Client) (creds : credentials) : M DataFrame :=
  let query_list := assignment_query_list environment_id in
  let return_data := assignment_return_data in
  result <- search_assignments query_list return_data chunk_size client
              (without_client_secret creds) ;;
  let filtered_result := filter_assignments mh result start end_ in
  lift (assignments_table filtered_result device_types column_name_prefix).

(** The body of the loop of lines 116-124. *)
Definition datapoint_dict (datum : Datapoint.t) : result dict :=
  (let? data := get (Datapoint.file datum) File.data in
   let? data_dict :=
     match data with
     | None =>
         Raise (TypeError
           "the JSON object must be str, bytes or bytearray, not NoneType")
     | Some s => json_loads s
     end in
   let? tag_assignment_id := get (Datapoint.source datum) Source.assignment_id in
   let? rssi :=
     match Payload.rssi data_dict with
     | None =>
         Raise (TypeError
           "float() argument must be a string or a number, not 'NoneType'")
     | Some f => Ok f
     end in
   Ok [("data_id", cell_of (Datapoint.data_id datum));
       ("timestamp", cell_of (Datapoint.timestamp datum));
       ("tag_assignment_id", cell_of tag_assignment_id);
       ("anchor_id", cell_of (Payload.anchor_id data_dict));
       ("rssi", Float rssi)])%result.

(** Lines 129-135: the anchor assignments, once under their assignment
    ids and once under their device ids. *)
Definition anchor_ids_table (anchor_assignments_df : DataFrame) : result DataFrame :=
  (let? assignment_anchor_ids_df := reset_index anchor_assignments_df in
   let? ids := getitem assignment_anchor_ids_df "anchor_assignment_id" in
   let? assignment_anchor_ids_df := setitem assignment_anchor_ids_df "anchor_id" ids in
   let? assignment_anchor_ids_df := set_index assignment_anchor_ids_df "anchor_id" in
   let? device_anchor_ids_df := reset_index anchor_assignments_df in
   let? ids := getitem device_anchor_ids_df "anchor_device_id" in
   let? device_anchor_ids_df := setitem device_anchor_ids_df "anchor_id" ids in
   let? device_anchor_ids_df := set_index device_anchor_ids_df "anchor_id" in
   Ok (concat assignment_anchor_ids_df device_anchor_ids_df))%result.

(** Lines 137-152. *)
Definition return_columns (return_tag_name return_tag_tag_id return_anchor_name : bool)
  : list string :=
  ["timestamp"; "tag_assignment_id"; "tag_device_id"]
  ++ (if return_tag_name then ["tag_name"] else [])
  ++ (if return_tag_tag_id then ["tag_tag_id"] else [])
  ++ ["anchor_assignment_id"; "anchor_device_id"]
  ++ (if return_anchor_name then ["anchor_name"] else [])
  ++ ["rssi"].

(** Lines 114-154 of [fetch_ble_datapoints]: from the datapoints the
    search returned and the two assignment tables to the table returned. *)
Definition datapoints_table (result_ : list Datapoint.t)
  (tag_assignments_df anchor_assignments_df : DataFrame)
  (return_tag_name return_tag_tag_id return_anchor_name : bool)
  : result DataFrame :=
  (let? data := for_each datapoint_dict result_ in
   let datapoints_df := DataFrame_of data in
   let? timestamps := getitem datapoints_df "timestamp" in
   let? timestamps := for_each to_datetime timestamps in
   let? datapoints_df := setitem datapoints_df "timestamp" timestamps in
   let? datapoints_df := set_index datapoints_df "data_id" in
   let? datapoints_df := join datapoints_df tag_assignments_df "tag_assignment_id" in
   let? anchor_ids_df := anchor_ids_table anchor_assignments_df in
   let? datapoints_df := join datapoints_df anchor_ids_df "anchor_id" in
   Ok (reindex datapoints_df
         (return_columns return_tag_name return_tag_tag_id return_anchor_name)))%result.

(** The query list of lines 73-90. *)
Definition datapoint_query_list (tag_assignment_ids : list cell)
  (start end_ : option Z) : list Query.t :=
  [Query.Build "source" "IN" (values tag_assignment_ids)]
  ++ match start with
     | None => []
     | Some s => [Query.Build "timestamp" "GTE" (value (to_honeycomb_datetime mh s))]
     end
  ++ match end_ with
     | None => []
     | Some e => [Query.Build "timestamp" "LTE" (value (to_honeycomb_datetime mh e))]
     end.

(** The fields of lines 91-102. *)
Definition datapoint_return_data : list selection :=
  [leaf "data_id"; leaf "timestamp";
   nested "source" [nested "... on Assignment" [leaf "assignment_id"]];
   nested "file" [leaf "data"]].

(** [fetch_ble_datapoints], lines 8-154. *)
Definition fetch_ble_datapoints (start end_ : option Z)
  (environment_id environment_name : option string)
  (return_tag_name return_tag_tag_id return_anchor_name : bool)
  (tag_device_types anchor_device_types : option (list string))
  (chunk_size : Z) (client : option Client) (creds : credentials) : M DataFrame :=
  environment_id <- fetch_environment_id environment_id environment_name client creds ;;
  match environment_id with
  | None => raise (ValueError "Must specify environment")
  | Some environment_id =>
      tag_assignments_df <-
        fetch_device_assignments environment_id start end_ tag_device_types
          (Some "tag") chunk_size client creds ;;
      anchor_assignments_df <-
        fetch_device_assignments environment_id start end_ anchor_device_types
          (Some "anchor") chunk_size client creds ;;
      let tag_assignment_ids := unique (index tag_assignments_df) in
      let query_list := datapoint_query_list tag_assignment_ids start end_ in
      let return_data := datapoint_return_data in
      result <- search_ble_datapoints query_list return_data chunk_size client creds ;;
      lift (datapoints_table result tag_assignments_df anchor_assignments_df
              return_tag_name return_tag_tag_id return_anchor_name)
  end.

End honeycomb_io.

(** The defaults of [fetch_ble_datapoints]. *)
Definition default_tag_device_types : option (list string) := Some ["BLETAG"].
Definition default_anchor_device_types : option (list string) :=
  Some ["PIZERO"; "PI3"; "PI3WITHCAMERA"].
Definition default_chunk_size : Z := 100.

(** ** Vocabulary of the statements *)

(** The device of an assignment; a device without any entry when the
    assignment has none. *)
Definition device_of (a : Assignment.t) : Device.t :=
  match Assignment.assigned a with
  | Some d => d
  | None => Device.Build None None None None None None
  end.

(** The assignment passes the device-type filter. *)
Definition has_requested_type (device_types : option (list string))
  (a : Assignment.t) : bool :=
  match device_types with
  | None => true
  | Some dts => in_device_types (Device.device_type (device_of a)) dts
  end.

Definition device_cells (a : Assignment.t) : list cell :=
  [cell_of (Device.device_id (device_of a));
   cell_of (Device.device_type (device_of a));
   cell_of (Device.name (device_of a));
   cell_of (Device.part_number (device_of a));
   cell_of (Device.serial_number (device_of a));
   cell_of (Device.tag_id (device_of a))].

(** The row of an assignment in the table of [fetch_device_assignments]. *)
Definition assignment_row (a : Assignment.t) : cell * list cell :=
  (cell_of (Assignment.assignment_id a), device_cells a).

Definition assignment_dict_of (a : Assignment.t) : dict :=
  [("assignment_id", cell_of (Assignment.assignment_id a));
   ("device_id", cell_of (Device.device_id (device_of a)));
   ("device_type", cell_of (Device.device_type (device_of a)));
   ("name", cell_of (Device.name (device_of a)));
   ("part_number", cell_of (Device.part_number (device_of a)));
   ("serial_number", cell_of (Device.serial_number (device_of a)));
   ("tag_id", cell_of (Device.tag_id (device_of a)))].

Definition prefixed (column_name_prefix : option string) (name : string) : string :=
  match column_name_prefix with
  | None => name
  | Some p => ((p ++ "_") ++ name)%string
  end.

Definition assignment_columns : list string :=
  ["device_id"; "device_type"; "name"; "part_number"; "serial_number"; "tag_id"].

(** The table of the assignments [kept], in their order. *)
Definition assignments_frame (column_name_prefix : option string)
  (kept : list Assignment.t) : DataFrame :=
  {| index_name := Some (prefixed column_name_prefix "assignment_id");
     columns := map (prefixed column_name_prefix) assignment_columns;
     rows := map assignment_row kept |}.

(** The rows of the table of [fetch_ble_datapoints]. *)

Section datapoint_rows.

Variable json_loads : string -> result Payload.t.

(** The payload [json.loads] makes of the data of a datapoint, when there
    is one. *)
Definition payload_of (datum : Datapoint.t) : option Payload.t :=
  match Datapoint.file datum with
  | None => None
  | Some f =>
      match File.data f with
      | None => None
      | Some s =>
          match json_loads s with
          | inl _ => None
          | inr p => Some p
          end
      end
  end.

(** The anchor id parsed from the payload of a datapoint. *)
Definition parsed_anchor_id (datum : Datapoint.t) : option string :=
  match payload_of datum with
  | None => None
  | Some p => Payload.anchor_id p
  end.

Definition parsed_rssi (datum : Datapoint.t) : spec_float :=
  match payload_of datum with
  | None => S754_zero false
  | Some p =>
      match Payload.rssi p with
      | None => S754_zero false
      | Some f => f
      end
  end.

Definition tag_assignment_id_of (datum : Datapoint.t) : option string :=
  match Datapoint.source datum with
  | None => None
  | Some s => Source.assignment_id s
  end.

Definition datapoint_dict_of (datum : Datapoint.t) : dict :=
  [("data_id", cell_of (Datapoint.data_id datum));
   ("timestamp", cell_of (Datapoint.timestamp datum));
   ("tag_assignment_id", cell_of (tag_assignment_id_of datum));
   ("anchor_id", cell_of (parsed_anchor_id datum));
   ("rssi", Float (parsed_rssi datum))].

(** The side of a left join for one key: the rows found, or a single
    missing one. *)
Definition or_none {A : Type} (found : list A) : list (option A) :=
  match found with
  | [] => [None]
  | _ :: _ => map Some found
  end.

(** The tag assignments whose assignment id is [key]. *)
Definition tag_matches (tags : list Assignment.t) (key : cell) : list Assignment.t :=
  filter (fun a => cell_eqb (cell_of (Assignment.assignment_id a)) key) tags.

(** The anchor assignments whose assignment id is [key], followed by those
    whose device id is [key]. *)
Definition anchor_matches (anchors : list Assignment.t) (key : cell)
  : list Assignment.t :=
  filter (fun a => cell_eqb (cell_of (Assignment.assignment_id a)) key) anchors
  ++ filter (fun a => cell_eqb (cell_of (Device.device_id (device_of a))) key) anchors.

(** An entry taken from the assignment a row was joined with; missing when
    it was joined with none. *)
Definition joined (o : option Assignment.t) (entry : Assignment.t -> option string)
  : cell :=
  match o with
  | None => NaN
  | Some a => cell_of (entry a)
  end.

(** The row made of a datapoint, its converted timestamp, and the tag and
    anchor assignments it was joined with. *)
Definition table_row (return_tag_name return_tag_tag_id return_anchor_name : bool)
  (datum : Datapoint.t) (timestamp : cell) (tag anchor : option Assignment.t)
  : cell * list cell :=
  (cell_of (Datapoint.data_id datum),
   [timestamp;
    cell_of (tag_assignment_id_of datum);
    joined tag (fun a => Device.device_id (device_of a))]
   ++ (if return_tag_name
       then [joined tag (fun a => Device.name (device_of a))] else [])
   ++ (if return_tag_tag_id
       then [joined tag (fun a => Device.tag_id (device_of a))] else [])
   ++ [joined anchor Assignment.assignment_id;
       joined anchor (fun a => Device.device_id (device_of a))]
   ++ (if return_anchor_name
       then [joined anchor (fun a => Device.name (device_of a))] else [])
   ++ [Float (parsed_rssi datum)]).

(** The rows of one datapoint: one for every pair of a matching tag
    assignment and a matching anchor assignment. *)
Definition datapoint_rows (return_tag_name return_tag_tag_id return_anchor_name : bool)
  (tags anchors : list Assignment.t) (datum : Datapoint.t) (timestamp : cell)
  : list (cell * list cell) :=
  flat_map
    (fun tag =>
       map (table_row return_tag_name return_tag_tag_id return_anchor_name
              datum timestamp tag)
           (or_none (anchor_matches anchors (cell_of (parsed_anchor_id datum)))))
    (or_none (tag_matches tags (cell_of (tag_assignment_id_of datum)))).

Definition table_rows (return_tag_name return_tag_tag_id return_anchor_name : bool)
  (tags anchors : list Assignment.t) (result_ : list Datapoint.t)
  (timestamps : list cell) : list (cell * list cell) :=
  flat_map
    (fun dv =>
       datapoint_rows return_tag_name return_tag_tag_id return_anchor_name
         tags anchors (fst dv) (snd dv))
    (combine result_ timestamps).

End datapoint_rows.

(** The anchor assignments under their assignment ids, then under their
    device ids. *)
Definition anchor_ids_frame (anchors : list Assignment.t) : DataFrame :=
  {| index_name := Some "anchor_id";
     columns := "anchor_assignment_id"
                :: map (prefixed (Some "anchor")) assignment_columns;
     rows :=
       map (fun a => (cell_of (Assignment.assignment_id a),
                      cell_of (Assignment.assignment_id a) :: device_cells a))
           anchors
       ++ map (fun a => (cell_of (Device.device_id (device_of a)),
                         cell_of (Assignment.assignment_id a) :: device_cells a))
              anchors |}.

(** The comparison an operator name stands for: [x] is the entry of the
    object, [bound] the value of the query. *)
Definition compares (operator : string) (x bound : Z) : option bool :=
  if String.eqb operator "EQ" then Some (Z.eqb x bound)
  else if String.eqb operator "GTE" then Some (Z.leb bound x)
  else if String.eqb operator "LTE" then Some (Z.leb x bound)
  else if String.eqb operator "GT" then Some (Z.ltb bound x)
  else if String.eqb operator "LT" then Some (Z.ltb x bound)
  else None.

(** A datapoint with timestamp [t] passes the entry [q] of a query list,
    as far as its timestamp goes; [decode] reads a Honeycomb datetime. *)
Definition timestamp_passes (decode : string -> option Z) (t : Z) (q : Query.t)
  : bool :=
  if String.eqb (Query.field q) "timestamp" then
    match Query.operand_ q with
    | value v =>
        match decode v with
        | None => false
        | Some bound =>
            match compares (Query.operator q) t bound with
            | None => false
            | Some b => b
            end
        end
    | values _ => false
    end
  else true.

(** The query [search_objects] sends for datapoints. *)
Definition datapoint_request (query_list : list Query.t) (chunk_size : Z)
  : Request.t :=
  Request.Build searchDatapoints
    (query_argument "QueryExpression!" "AND" query_list)
    datapoint_return_data "data_id" (Some chunk_size).

(** The assignments in the table of [fetch_device_assignments]: those of
    the service's answer that pass the time filter and the device-type
    filter. *)
Definition kept_assignments (mh : minimal_honeycomb)
  (assignments : list Assignment.t) (start end_ : option Z)
  (device_types : option (list string)) : list Assignment.t :=
  filter (has_requested_type device_types)
         (filter_assignments mh assignments start end_).

(** The query [fetch_device_assignments] sends, and the one
    [fetch_environment_id] sends for a name. *)
Definition assignment_request (environment_id : string) (chunk_size : Z)
  : Request.t :=
  Request.Build searchAssignments
    (query_argument "QueryExpression!" "AND" (assignment_query_list environment_id))
    assignment_return_data "assignment_id" (Some chunk_size).

Definition environment_request (environment_name : string) : Request.t :=
  Request.Build findEnvironments (name_argument "String" environment_name)
    [leaf "environment_id"] "environment_id" None.

(** What Python says of [None.get]. *)
Definition no_get : exn :=
  AttributeError "'NoneType' object has no attribute 'get'".

(** ** The time filter of minimal_honeycomb

    [minimal_honeycomb.filter_assignments] is not part of this
    repository.  As the library has it, an assignment is dropped when it
    has an end and ends before the requested start, or has a start and
    starts after the requested end; an assignment that touches a boundary
    is kept, and so is one without the entry.  [from_honeycomb_datetime]
    is the library's reading of the datetimes of the service. *)







(** ** A small service

    An instance of the parameters, used to run the functions: datetimes
    are written in decimal, the time filter keeps the assignments whose
    window meets the requested one, and the client answers every query
    with the lists it is built from. *)

Module Demo.

Definition datetime_string (t : Z) : string := NilZero.string_of_int (Z.to_int t).

Definition datetime_of_string (s : string) : option Z :=
  option_map Z.of_int (NilZero.int_of_string s).

Definition overlaps (start end_ : option Z) (a : Assignment.t) : bool :=
  match end_, Assignment.start a with
  | Some e, Some s =>
      match datetime_of_string s with
      | Some s => Z.ltb s e
      | None => true
      end
  | _, _ => true
  end
  &&
  match start, Assignment.end_ a with
  | Some s, Some e =>
      match datetime_of_string e with
      | Some e => Z.ltb s e
      | None => true
      end
  | _, _ => true
  end.

Definition client (environments : list Environment.t)
  (assignments : list Assignment.t) (datapoints : list Datapoint.t) : Client :=
  {| bulk_query := fun rn _ _ _ _ =>
       match rn as r return result (list (object_of r)) with
       | findEnvironments => Ok environments
       | searchAssignments => Ok assignments
       | searchDatapoints => Ok datapoints
       end |}.

Definition mh (c : Client) : minimal_honeycomb :=
  {| MinimalHoneycombClient := fun _ => c;
     filter_assignments := fun l s e => filter (overlaps s e) l;
     to_honeycomb_datetime := datetime_string |}.

Definition rssi_67 : spec_float := S754_finite true 67 0.

Definition json_loads (s : string) : result Payload.t :=
  if String.eqb s "{anchor_id: dev-a1, rssi: -67}" then
    Ok (Payload.Build (Some "dev-a1") (Some rssi_67))
  else if String.eqb s "{anchor_id: anc-asg-1, rssi: -67}" then
    Ok (Payload.Build (Some "anc-asg-1") (Some rssi_67))
  else if String.eqb s "{anchor_id: nowhere, rssi: -67}" then
    Ok (Payload.Build (Some "nowhere") (Some rssi_67))
  else Raise (ValueError "Expecting value").

Definition to_datetime (c : cell) : result cell :=
  match c with
  | Str s =>
      match datetime_of_string s with
      | Some t => Ok (Timestamp t)
      | None => Raise (ValueError "Unknown datetime string format")
      end
  | _ => Ok c
  end.

Definition tag_device : Device.t :=
  Device.Build (Some "dev-t1") None (Some "BLETAG") (Some "Tag 1") (Some "T1") None.

Definition anchor_device : Device.t :=
  Device.Build (Some "dev-a1") None (Some "PIZERO") (Some "Anchor 1") None None.

Definition other_device : Device.t :=
  Device.Build (Some "dev-x") None None None None None.

Definition tag_assignment : Assignment.t :=
  Assignment.Build (Some "tag-asg-1") (Some "0") None (Some tag_device).

(** The anchor device is assigned twice: until 50, and from 50 on. *)
Definition anchor_assignment_1 : Assignment.t :=
  Assignment.Build (Some "anc-asg-1") (Some "0") (Some "50") (Some anchor_device).

Definition anchor_assignment_2 : Assignment.t :=
  Assignment.Build (Some "anc-asg-2") (Some "50") None (Some anchor_device).

Definition other_assignment : Assignment.t :=
  Assignment.Build (Some "oth-asg-1") (Some "0") None (Some other_device).

Definition assignments : list Assignment.t :=
  [tag_assignment; anchor_assignment_1; anchor_assignment_2; other_assignment].

Definition datapoint (data_id timestamp data : string) : Datapoint.t :=
  Datapoint.Build (Some data_id) (Some timestamp)
    (Some (Source.Build (Some "tag-asg-1"))) (Some (File.Build (Some data))).

Definition datapoint_1 : Datapoint.t :=
  datapoint "dp-1" "10" "{anchor_id: dev-a1, rssi: -67}".

Definition datapoint_2 : Datapoint.t :=
  datapoint "dp-2" "20" "{anchor_id: anc-asg-1, rssi: -67}".

Definition datapoint_3 : Datapoint.t :=
  datapoint "dp-3" "30" "{anchor_id: nowhere, rssi: -67}".

Definition datapoints : list Datapoint.t := [datapoint_1; datapoint_2; datapoint_3].

Definition environment : Environment.t := Environment.Build (Some "env-1").

Definition service : Client := client [environment] assignments datapoints.

(** One datapoint, heard by the anchor device that was assigned twice. *)
Definition reassigned_service : Client :=
  client [environment]
    [tag_assignment; anchor_assignment_1; anchor_assignment_2] [datapoint_1].

(** A service without datapoints, one with a datapoint that is not JSON,
    one whose environment has no id, and one whose assignment search
    fails. *)
Definition silent_service : Client := client [environment] assignments [].

Definition broken_datapoint : Datapoint.t := datapoint "dp-4" "40" "not json".

Definition broken_service : Client :=
  client [environment] assignments [datapoint_1; broken_datapoint; datapoint_2].

Definition json_loads_without_rssi (s : string) : result Payload.t :=
  Ok (Payload.Build (Some "dev-a1") None).

Definition unregistered_service : Client :=
  client [Environment.Build None] assignments datapoints.

Definition failing_service : Client :=
  {| bulk_query := fun rn _ _ _ _ =>
       match rn as r return result (list (object_of r)) with
       | findEnvironments => Ok [environment]
       | searchAssignments => Raise (ClientError "timeout")
       | searchDatapoints => Ok datapoints
       end |}.

(** The two assignment tables of the small service between 0 and 40. *)
Definition tag_table : DataFrame :=
  assignments_frame (Some "tag") [tag_assignment].

Definition anchor_table : DataFrame :=
  assignments_frame (Some "anchor") [anchor_assignment_1].



Definition no_credentials : credentials :=
  {| uri := None; token_uri := None; audience := None; client_id := None;
     client_secret := None |}.

End Demo.

(** * Properties *)

(** Running the functions on the small service. *)
Ltac run := vm_compute; reflexivity.

Ltac distinct :=
  vm_compute; repeat constructor; simpl; intuition discriminate.


(** ** Lists and frames *)

Lemma map_snd_range_index {A B : Type} (g : A -> B) (l : list A) (i : Z) :
  map (fun r => g (snd r)) (range_index i l) = map g l.
Proof.
  revert i. induction l as [|x l IH]; intros i; simpl.
  - reflexivity.
  - now rewrite IH.
Qed.

Lemma map_range_index {A B : Type} (h : cell * A -> B) (g : A -> B)
  (l : list A) (i : Z) :
  (forall r, h r = g (snd r)) ->
  map h (range_index i l) = map g l.
Proof.
  intros H. rewrite <- (map_snd_range_index g l i).
  apply map_ext. exact H.
Qed.

Lemma range_index_length {A : Type} (l : list A) (i : Z) :
  List.length (range_index i l) = List.length l.
Proof.
  revert i. induction l as [|x l IH]; intros i; simpl; [reflexivity|].
  now rewrite IH.
Qed.

Lemma combine_range_index {A B C : Type} (g : A -> B -> C) (l : list A)
  (vs : list B) (i : Z) :
  map (fun rv => g (snd (fst rv)) (snd rv)) (combine (range_index i l) vs)
  = map (fun xv => g (fst xv) (snd xv)) (combine l vs).
Proof.
  revert vs i. induction l as [|x l IH]; intros vs i; simpl.
  - reflexivity.
  - destruct vs as [|v vs]; simpl; [reflexivity|]. now rewrite IH.
Qed.

Lemma combine_map_l {A B C : Type} (f : A -> B) (l : list A) (vs : list C) :
  combine (map f l) vs = map (fun xv => (f (fst xv), snd xv)) (combine l vs).
Proof.
  revert vs. induction l as [|x l IH]; intros vs; simpl.
  - reflexivity.
  - destruct vs as [|v vs]; simpl; [reflexivity|]. now rewrite IH.
Qed.

Lemma combine_map_self {A B : Type} (g : A -> B) (l : list A) :
  combine l (map g l) = map (fun x => (x, g x)) l.
Proof.
  induction l as [|x l IH]; simpl; [reflexivity|]. now rewrite IH.
Qed.

Lemma filter_map_comm {A B : Type} (p : B -> bool) (f : A -> B) (l : list A) :
  filter p (map f l) = map f (filter (fun x => p (f x)) l).
Proof.
  induction l as [|x l IH]; simpl; [reflexivity|].
  destruct (p (f x)); simpl; now rewrite IH.
Qed.

Lemma flat_map_map_l {A B C : Type} (f : B -> list C) (g : A -> B) (l : list A) :
  flat_map f (map g l) = flat_map (fun x => f (g x)) l.
Proof.
  induction l as [|x l IH]; simpl; [reflexivity|]. now rewrite IH.
Qed.

Lemma map_flat_map_l {A B C : Type} (f : B -> C) (g : A -> list B) (l : list A) :
  map f (flat_map g l) = flat_map (fun x => map f (g x)) l.
Proof.
  induction l as [|x l IH]; simpl; [reflexivity|].
  now rewrite map_app, IH.
Qed.

Lemma for_each_length {A B : Type} (f : A -> result B) (l : list A) (ys : list B) :
  for_each f l = Ok ys -> List.length ys = List.length l.
Proof.
  revert ys. induction l as [|x l IH]; intros ys; simpl.
  - intros H. inversion H. reflexivity.
  - destruct (f x) as [e|y]; [discriminate|].
    destruct (for_each f l) as [e|ys']; [discriminate|].
    intros H. inversion H. simpl. now rewrite (IH ys').
Qed.

Lemma for_each_map {A B : Type} (f : A -> result B) (g : A -> B) (l : list A)
  (ys : list B) :
  (forall x y, f x = Ok y -> y = g x) ->
  for_each f l = Ok ys -> ys = map g l.
Proof.
  intros Hfg. revert ys. induction l as [|x l IH]; intros ys; simpl.
  - intros H. now inversion H.
  - destruct (f x) as [e|y] eqn:Hx; [discriminate|].
    destruct (for_each f l) as [e|ys']; [discriminate|].
    intros H. inversion H. now rewrite (Hfg x y Hx), (IH ys').
Qed.

(** The columns [pd.DataFrame] gives to dictionaries that all have the
    keys [keys]. *)
Lemma record_columns {A : Type} (f : A -> dict) (keys : list string) (l : list A) :
  l <> [] ->
  (forall x, map fst (f x) = keys) ->
  add_new [] keys = keys ->
  add_new keys keys = keys ->
  fold_left (fun acc d => add_new acc (map fst d)) (map f l) [] = keys.
Proof.
  intros Hl Hkeys H0 H1.
  destruct l as [|x l]; [contradiction|]. simpl.
  rewrite Hkeys, H0. clear Hl x.
  induction l as [|x l IH]; simpl; [reflexivity|].
  now rewrite Hkeys, H1.
Qed.

Lemma DataFrame_of_records {A : Type} (f : A -> dict) (row : A -> list cell)
  (keys : list string) (l : list A) :
  l <> [] ->
  (forall x, map fst (f x) = keys) ->
  add_new [] keys = keys ->
  add_new keys keys = keys ->
  (forall x, map (dict_get (f x)) keys = row x) ->
  DataFrame_of (map f l)
  = {| index_name := None; columns := keys; rows := range_index 0 (map row l) |}.
Proof.
  intros Hl Hkeys H0 H1 Hrow. unfold DataFrame_of.
  rewrite (record_columns f keys l Hl Hkeys H0 H1).
  rewrite map_map. f_equal. f_equal. apply map_ext. exact Hrow.
Qed.

(** ** Computations *)

Lemma outcome_bind {A B : Type} (m : M A) (f : A -> M B) :
  outcome (bind m f)
  = match outcome m with
    | inl e => inl e
    | inr a => outcome (f a)
    end.
Proof. unfold outcome, bind. now destruct (fst m). Qed.

Lemma queries_bind {A B : Type} (m : M A) (f : A -> M B) :
  queries (bind m f)
  = match outcome m with
    | inl _ => queries m
    | inr a => queries m ++ queries (f a)
    end.
Proof. unfold outcome, queries, bind. now destruct (fst m). Qed.

(** ** The table of device assignments *)

Lemma assignment_dict_Ok (a : Assignment.t) (d : dict) :
  assignment_dict a = Ok d -> d = assignment_dict_of a.
Proof.
  unfold assignment_dict, assignment_dict_of, device_of.
  destruct (Assignment.assigned a) as [dev|]; simpl; [|discriminate].
  intros H. now inversion H.
Qed.

Lemma device_type_requested_Ok (dts : option (list string)) (a : Assignment.t)
  (b : bool) :
  device_type_requested dts a = Ok b -> b = has_requested_type dts a.
Proof.
  unfold device_type_requested, has_requested_type, device_of.
  destruct dts as [l|]; [|intros H; now inversion H].
  destruct (Assignment.assigned a) as [dev|]; simpl; [|discriminate].
  intros H. now inversion H.
Qed.

Lemma collect_assignments_Ok (dts : option (list string)) (l : list Assignment.t)
  (data : list dict) :
  collect_assignments dts l = Ok data ->
  data = map assignment_dict_of (filter (has_requested_type dts) l).
Proof.
  revert data. induction l as [|a l IH]; intros data; simpl.
  - intros H. now inversion H.
  - destruct (device_type_requested dts a) as [e|b] eqn:Hb; simpl; [discriminate|].
    apply device_type_requested_Ok in Hb. subst b.
    destruct (has_requested_type dts a); [|apply IH].
    destruct (assignment_dict a) as [e|d] eqn:Hd; simpl; [discriminate|].
    apply assignment_dict_Ok in Hd. subst d.
    destruct (collect_assignments dts l) as [e|data'] eqn:Hl; simpl; [discriminate|].
    intros H. inversion H. now rewrite (IH data').
Qed.

(** When every assignment has a device, the loop raises nothing. *)
Lemma collect_assignments_total (dts : option (list string)) (l : list Assignment.t) :
  (forall a, In a l -> Assignment.assigned a <> None) ->
  collect_assignments dts l
  = Ok (map assignment_dict_of (filter (has_requested_type dts) l)).
Proof.
  induction l as [|a l IH]; intros Hall; simpl; [reflexivity|].
  assert (Ha : Assignment.assigned a <> None) by (apply Hall; now left).
  assert (Hl : forall a', In a' l -> Assignment.assigned a' <> None)
    by (intros a' Hin; apply Hall; now right).
  rewrite (IH Hl). clear IH Hl Hall.
  destruct a as [id st en [dev|]]; [|now contradiction Ha].
  unfold device_type_requested, has_requested_type.
  destruct dts as [dts|]; unfold device_of; simpl; [|reflexivity].
  now destruct (in_device_types (Device.device_type dev) dts).
Qed.

(** What [assignments_table] makes of the dictionaries of the assignments
    [kept]: it raises KeyError when there is none. *)
Lemma table_of_dicts (prefix : option string) (kept : list Assignment.t) :
  (let? df := set_index (DataFrame_of (map assignment_dict_of kept)) "assignment_id" in
   add_prefix prefix (reindex df assignment_columns))%result
  = match kept with
    | [] => Raise (KeyError "None of ['assignment_id'] are in the columns")
    | _ :: _ => Ok (assignments_frame prefix kept)
    end.
Proof.
  destruct kept as [|a kept]; [reflexivity|].
  rewrite (DataFrame_of_records assignment_dict_of
             (fun a => cell_of (Assignment.assignment_id a) :: device_cells a)
             ("assignment_id" :: assignment_columns));
    try reflexivity; try discriminate.
  unfold set_index. cbn -[range_index map].
  rewrite (map_range_index _ (fun cells => (nth 0 cells NaN, remove_nth 0 cells)))
    by reflexivity.
  rewrite map_map.
  unfold reindex. cbn [index_name columns rows].
  rewrite map_map.
  rewrite (map_ext _ assignment_row) by reflexivity.
  unfold add_prefix, assignments_frame.
  destruct prefix as [p|]; cbn [index_name columns rows prefixed]; [reflexivity|].
  now rewrite map_id.
Qed.

Lemma assignments_table_Ok (filtered_result : list Assignment.t)
  (device_types prefix : option _) (df : DataFrame) :
  assignments_table filtered_result device_types prefix = Ok df ->
  df = assignments_frame prefix (filter (has_requested_type device_types) filtered_result)
  /\ filter (has_requested_type device_types) filtered_result <> [].
Proof.
  unfold assignments_table.
  destruct (collect_assignments device_types filtered_result) as [e|data] eqn:Hdata;
    [discriminate|].
  apply collect_assignments_Ok in Hdata. subst data.
  cbn [rbind]. fold assignment_columns.
  rewrite table_of_dicts.
  destruct (filter (has_requested_type device_types) filtered_result);
    [discriminate|].
  intros H. inversion H. split; [reflexivity|discriminate].
Qed.

Lemma assignments_table_total (filtered_result : list Assignment.t)
  (device_types prefix : option _) :
  (forall a, In a filtered_result -> Assignment.assigned a <> None) ->
  filter (has_requested_type device_types) filtered_result <> [] ->
  assignments_table filtered_result device_types prefix
  = Ok (assignments_frame prefix
          (filter (has_requested_type device_types) filtered_result)).
Proof.
  intros Hall Hne. unfold assignments_table.
  rewrite (collect_assignments_total device_types filtered_result Hall).
  cbn [rbind Ok]. fold assignment_columns.
  change (inr ?x) with (Ok x).
  rewrite table_of_dicts.
  destruct (filter (has_requested_type device_types) filtered_result);
    [contradiction|reflexivity].
Qed.

Lemma append_assoc (a b c : string) : ((a ++ b) ++ c = a ++ (b ++ c))%string.
Proof. induction a as [|x a IH]; simpl; [reflexivity|]. now rewrite IH. Qed.


Section device_assignments.

Variable mh : minimal_honeycomb.

Lemma fetch_device_assignments_outcome (environment_id : string)
  (start end_ : option Z) (device_types prefix : option _) (chunk_size : Z)
  (client : option Client) (creds : credentials) :
  outcome (fetch_device_assignments mh environment_id start end_ device_types
             prefix chunk_size client creds)
  = match outcome (search_assignments mh (assignment_query_list environment_id)
                     assignment_return_data chunk_size client
                     (without_client_secret creds)) with
    | inl e => inl e
    | inr result =>
        assignments_table (filter_assignments mh result start end_)
          device_types prefix
    end.
Proof. unfold fetch_device_assignments. now rewrite outcome_bind. Qed.

(** What the table is, when there is one. *)
Lemma fetch_device_assignments_Ok (environment_id : string)
  (start end_ : option Z) (device_types prefix : option _) (chunk_size : Z)
  (client : option Client) (creds : credentials) (result_ : list Assignment.t)
  (df : DataFrame) :
  outcome (search_assignments mh (assignment_query_list environment_id)
             assignment_return_data chunk_size client
             (without_client_secret creds)) = Ok result_ ->
  outcome (fetch_device_assignments mh environment_id start end_ device_types
             prefix chunk_size client creds) = Ok df ->
  df = assignments_frame prefix
         (filter (has_requested_type device_types)
                 (filter_assignments mh result_ start end_)).
Proof.
  intros Hsearch. rewrite fetch_device_assignments_outcome, Hsearch.
  intros H. now apply assignments_table_Ok in H.
Qed.

(** The table is there as soon as one assignment passes both filters and
    the assignments have devices. *)
Lemma fetch_device_assignments_returns (environment_id : string)
  (start end_ : option Z) (device_types prefix : option _) (chunk_size : Z)
  (client : option Client) (creds : credentials) (result_ : list Assignment.t) :
  outcome (search_assignments mh (assignment_query_list environment_id)
             assignment_return_data chunk_size client
             (without_client_secret creds)) = Ok result_ ->
  (forall a, In a (filter_assignments mh result_ start end_) ->
             Assignment.assigned a <> None) ->
  filter (has_requested_type device_types)
         (filter_assignments mh result_ start end_) <> [] ->
  outcome (fetch_device_assignments mh environment_id start end_ device_types
             prefix chunk_size client creds)
  = Ok (assignments_frame prefix
          (filter (has_requested_type device_types)
                  (filter_assignments mh result_ start end_))).
Proof.
  intros Hsearch Hall Hne. rewrite fetch_device_assignments_outcome, Hsearch.
  now apply assignments_table_total.
Qed.




(** C8: the index of the table is named [p + '_assignment_id'] and its
    columns are [p + '_device_id'], [p + '_device_type'], [p + '_name'],
    [p + '_part_number'], [p + '_serial_number'], [p + '_tag_id'], in this
    order, when the prefix is [p]; without a prefix the names are
    [assignment_id] and [device_id], ..., [tag_id]. *)
Theorem fetch_device_assignments_names
  (environment_id : string) (start end_ : option Z)
  (device_types : option (list string)) (prefix : option string)
  (chunk_size : Z) (client : option Client) (creds : credentials)
  (df : DataFrame) :
  outcome (fetch_device_assignments mh environment_id start end_ device_types
             prefix chunk_size client creds) = Ok df ->
  match prefix with
  | Some p =>
      index_name df = Some (p ++ "_assignment_id")%string
      /\ columns df
         = [(p ++ "_device_id")%string; (p ++ "_device_type")%string;
            (p ++ "_name")%string; (p ++ "_part_number")%string;
            (p ++ "_serial_number")%string; (p ++ "_tag_id")%string]
  | None =>
      index_name df = Some "assignment_id"
      /\ columns df
         = ["device_id"; "device_type"; "name"; "part_number";
            "serial_number"; "tag_id"]
  end.
Proof.
  rewrite fetch_device_assignments_outcome.
  destruct (outcome (search_assignments mh (assignment_query_list environment_id)
                       assignment_return_data chunk_size client
                       (without_client_secret creds))) as [e|result_];
    [discriminate|].
  intros H. apply assignments_table_Ok in H. destruct H as [-> _].
  destruct prefix as [p|]; cbn; [|split; reflexivity].
  now rewrite !append_assoc.
Qed.

(** C9: without requested device types, every assignment that passes the
    time filter has its row in the table, whatever its device type, a
    missing one included; the rows are those of these assignments, in
    order. *)
Theorem fetch_device_assignments_without_device_types
  (environment_id : string) (start end_ : option Z) (prefix : option string)
  (chunk_size : Z) (client : option Client) (creds : credentials)
  (result_ : list Assignment.t) (df : DataFrame) :
  outcome (search_assignments mh (assignment_query_list environment_id)
             assignment_return_data chunk_size client
             (without_client_secret creds)) = Ok result_ ->
  outcome (fetch_device_assignments mh environment_id start end_ None
             prefix chunk_size client creds) = Ok df ->
  rows df = map assignment_row (filter_assignments mh result_ start end_)
  /\ forall a, In a (filter_assignments mh result_ start end_) ->
               In (assignment_row a) (rows df).
Proof.
  intros Hsearch Hdf.
  rewrite (fetch_device_assignments_Ok _ _ _ _ _ _ _ _ _ _ Hsearch Hdf).
  cbn [assignments_frame rows has_requested_type].
  assert (Hall : forall l : list Assignment.t, filter (fun _ => true) l = l).
  { induction l as [|x l IH]; simpl; [reflexivity|]. now rewrite IH. }
  rewrite Hall. split; [reflexivity|].
  intros a Ha. now apply in_map.
Qed.

End device_assignments.



Lemma fetch_device_assignments_names_witness :
  exists df,
    outcome (fetch_device_assignments (Demo.mh Demo.service) "env-1"
               None None default_anchor_device_types (Some "anchor")
               100 (Some Demo.service) Demo.no_credentials) = Ok df
    /\ index_name df = Some "anchor_assignment_id"
    /\ columns df
       = ["anchor_device_id"; "anchor_device_type"; "anchor_name";
          "anchor_part_number"; "anchor_serial_number"; "anchor_tag_id"].
Proof.
  exists (assignments_frame (Some "anchor")
            [Demo.anchor_assignment_1; Demo.anchor_assignment_2]).
  split; [vm_compute; reflexivity|].
  refine (fetch_device_assignments_names (Demo.mh Demo.service) "env-1"
            None None default_anchor_device_types (Some "anchor")
            100 (Some Demo.service) Demo.no_credentials _ _).
  vm_compute; reflexivity.
Defined.

Lemma fetch_device_assignments_without_device_types_witness :
  exists df,
    outcome (fetch_device_assignments (Demo.mh Demo.service) "env-1"
               (Some 60%Z) (Some 70%Z) None None
               100 (Some Demo.service) Demo.no_credentials) = Ok df
    /\ In (assignment_row Demo.other_assignment) (rows df).
Proof.
  exists (assignments_frame None
            [Demo.tag_assignment; Demo.anchor_assignment_2; Demo.other_assignment]).
  split; [vm_compute; reflexivity|].
  refine (proj2 (fetch_device_assignments_without_device_types
                   (Demo.mh Demo.service) "env-1" (Some 60%Z) (Some 70%Z) None 100
                   (Some Demo.service) Demo.no_credentials Demo.assignments _
                   eq_refl _) Demo.other_assignment _).
  - vm_compute; reflexivity.
  - vm_compute. right. right. now left.
Defined.

(** ** The environment *)

Section environment.

Variable mh : minimal_honeycomb.

(** C2: an environment id given without a name is returned as it is, and
    no query is sent. *)
Theorem fetch_environment_id_by_id (environment_id : string)
  (client : option Client) (creds : credentials) :
  outcome (fetch_environment_id mh (Some environment_id) None client creds)
  = Ok (Some environment_id)
  /\ queries (fetch_environment_id mh (Some environment_id) None client creds) = [].
Proof. split; reflexivity. Qed.

(** C3: given a name and no id, [fetch_environment_id] returns the id of
    the environment when the findEnvironments query returns exactly one,
    and raises ValueError when it returns none or several. *)
Theorem fetch_environment_id_by_name (environment_name : string)
  (client : option Client) (creds : credentials)
  (environments : list Environment.t) :
  bulk_query
    match client with
    | None => MinimalHoneycombClient mh creds
    | Some c => c
    end
    findEnvironments (name_argument "String" environment_name)
    [leaf "environment_id"] "environment_id" None = Ok environments ->
  (forall env, environments = [env] ->
     outcome (fetch_environment_id mh None (Some environment_name) client creds)
     = Ok (Environment.environment_id env))
  /\ (List.length environments <> 1%nat ->
      exists msg,
        outcome (fetch_environment_id mh None (Some environment_name) client creds)
        = Raise (ValueError msg)).
Proof.
  intros Hquery. unfold fetch_environment_id.
  rewrite outcome_bind. unfold call_bulk_query, outcome at 1 3. cbn [fst].
  rewrite Hquery. split.
  - intros env ->. reflexivity.
  - intros Hlen. destruct environments as [|env [|env' l]].
    + eexists. reflexivity.
    + now contradiction Hlen.
    + eexists. reflexivity.
Qed.

(** C4: an id and a name together raise ValueError, and no query is sent. *)
Theorem fetch_environment_id_both (environment_id environment_name : string)
  (client : option Client) (creds : credentials) :
  outcome (fetch_environment_id mh (Some environment_id) (Some environment_name)
             client creds)
  = Raise (ValueError
      "If environment ID is specified, environment name cannot be specified")
  /\ queries (fetch_environment_id mh (Some environment_id) (Some environment_name)
                client creds) = [].
Proof. split; reflexivity. Qed.

Lemma fetch_environment_id_neither (client : option Client) (creds : credentials) :
  fetch_environment_id mh None None client creds = (Ok None, []).
Proof. reflexivity. Qed.

End environment.

Lemma fetch_environment_id_by_name_witness :
  outcome (fetch_environment_id (Demo.mh Demo.service) None (Some "Classroom")
             None Demo.no_credentials) = Ok (Some "env-1").
Proof.
  exact (proj1 (fetch_environment_id_by_name (Demo.mh Demo.service) "Classroom"
                  None Demo.no_credentials [Demo.environment] eq_refl)
               Demo.environment eq_refl).
Defined.

(** ** The pandas calls, on frames of a known shape *)

Lemma reset_index_named (n : string) (cols : list string)
  (rws : list (cell * list cell)) :
  existsb (String.eqb n) cols = false ->
  reset_index {| index_name := Some n; columns := cols; rows := rws |}
  = Ok {| index_name := None;
          columns := n :: cols;
          rows := range_index 0 (map (fun r => fst r :: snd r) rws) |}.
Proof. intros H. unfold reset_index. cbn [index_name columns rows]. now rewrite H. Qed.

Lemma getitem_at (df : DataFrame) (col : string) (i : nat) :
  position col (columns df) = Some i ->
  getitem df col = Ok (map (fun r => nth i (snd r) NaN) (rows df)).
Proof. intros H. unfold getitem. now rewrite H. Qed.

Lemma setitem_new (df : DataFrame) (col : string) (vals : list cell) :
  List.length vals = List.length (rows df) ->
  position col (columns df) = None ->
  setitem df col vals
  = Ok {| index_name := index_name df;
          columns := columns df ++ [col];
          rows := map (fun rv => (fst (fst rv), snd (fst rv) ++ [snd rv]))
                      (combine (rows df) vals) |}.
Proof.
  intros Hlen H. unfold setitem. rewrite Hlen, Nat.eqb_refl, H. reflexivity.
Qed.

Lemma setitem_at (df : DataFrame) (col : string) (vals : list cell) (i : nat) :
  List.length vals = List.length (rows df) ->
  position col (columns df) = Some i ->
  setitem df col vals
  = Ok {| index_name := index_name df;
          columns := columns df;
          rows := map (fun rv => (fst (fst rv), replace_nth i (snd rv) (snd (fst rv))))
                      (combine (rows df) vals) |}.
Proof.
  intros Hlen H. unfold setitem. rewrite Hlen, Nat.eqb_refl, H. reflexivity.
Qed.

Lemma set_index_at (df : DataFrame) (col : string) (i : nat) :
  position col (columns df) = Some i ->
  set_index df col
  = Ok {| index_name := Some col;
          columns := remove_nth i (columns df);
          rows := map (fun r => (nth i (snd r) NaN, remove_nth i (snd r))) (rows df) |}.
Proof. intros H. unfold set_index. now rewrite H. Qed.

Lemma join_at (df other : DataFrame) (on : string) (i : nat) :
  position on (columns df) = Some i ->
  existsb (fun c => existsb (String.eqb c) (columns df)) (columns other) = false ->
  join df other on
  = Ok {| index_name := index_name df;
          columns := columns df ++ columns other;
          rows :=
            flat_map
              (fun r =>
                 match filter (fun o => cell_eqb (fst o) (nth i (snd r) NaN))
                              (rows other) with
                 | [] => [(fst r, snd r ++ repeat NaN (List.length (columns other)))]
                 | found => map (fun o => (fst r, snd r ++ snd o)) found
                 end)
              (rows df) |}.
Proof. intros H Hcols. unfold join. now rewrite H, Hcols. Qed.

(** ** The table of datapoints *)

Lemma anchor_ids_half {B : Type} (anchors : list Assignment.t) (col : string)
  (i : nat) (key : Assignment.t -> cell) (k : DataFrame -> result B) :
  position col
    ("anchor_assignment_id" :: map (prefixed (Some "anchor")) assignment_columns)
  = Some i ->
  (forall a,
     nth i (cell_of (Assignment.assignment_id a) :: device_cells a) NaN = key a) ->
  (let? df := reset_index (assignments_frame (Some "anchor") anchors) in
   let? ids := getitem df col in
   let? df := setitem df "anchor_id" ids in
   let? df := set_index df "anchor_id" in
   k df)%result
  = k {| index_name := Some "anchor_id";
         columns := "anchor_assignment_id"
                    :: map (prefixed (Some "anchor")) assignment_columns;
         rows := map (fun a => (key a,
                                cell_of (Assignment.assignment_id a) :: device_cells a))
                     anchors |}.
Proof.
  intros Hcol Hkey. unfold assignments_frame.
  rewrite reset_index_named by reflexivity. cbn [rbind Ok].
  rewrite (getitem_at _ col i) by exact Hcol. cbn [rbind Ok rows].
  rewrite setitem_new;
    [|now rewrite length_map|reflexivity].
  cbn [rbind Ok rows columns index_name].
  rewrite (set_index_at _ "anchor_id" 7) by reflexivity.
  cbn [rbind Ok rows columns index_name].
  rewrite combine_map_self, !map_map.
  rewrite (map_range_index _
             (fun cells : list cell =>
                (nth 7 (cells ++ [nth i cells NaN]) NaN,
                 remove_nth 7 (cells ++ [nth i cells NaN])))) by reflexivity.
  rewrite !map_map.
  f_equal. f_equal.
  apply map_ext. intros a. cbn [assignment_row fst snd].
  rewrite Hkey. reflexivity.
Qed.

Lemma anchor_ids_table_frame (anchors : list Assignment.t) :
  anchor_ids_table (assignments_frame (Some "anchor") anchors)
  = Ok (anchor_ids_frame anchors).
Proof.
  unfold anchor_ids_table.
  rewrite (anchor_ids_half anchors "anchor_assignment_id" 0
             (fun a => cell_of (Assignment.assignment_id a))) by reflexivity.
  rewrite (anchor_ids_half anchors "anchor_device_id" 1
             (fun a => cell_of (Device.device_id (device_of a)))) by reflexivity.
  unfold concat, anchor_ids_frame. cbn [index_name columns rows].
  rewrite !map_map.
  reflexivity.
Qed.

Lemma datapoint_dict_Ok (json_loads : string -> result Payload.t)
  (datum : Datapoint.t) (d : dict) :
  datapoint_dict json_loads datum = Ok d -> d = datapoint_dict_of json_loads datum.
Proof.
  unfold datapoint_dict, datapoint_dict_of, parsed_anchor_id, parsed_rssi,
    payload_of, tag_assignment_id_of.
  destruct datum as [id ts [src|] [[[s|]]|]]; cbn; try discriminate.
  - destruct (json_loads s) as [e|p]; cbn; [discriminate|].
    destruct (Payload.rssi p) as [f|]; cbn; [|discriminate].
    intros H. now inversion H.
  - destruct (json_loads s) as [e|p]; cbn; discriminate.
Qed.

Lemma map_combine_range_index {A B C : Type} (h : (cell * A) * B -> C)
  (g : A -> B -> C) (l : list A) (vs : list B) (i : Z) :
  (forall rv, h rv = g (snd (fst rv)) (snd rv)) ->
  map h (combine (range_index i l) vs)
  = map (fun xv => g (fst xv) (snd xv)) (combine l vs).
Proof.
  intros H. rewrite <- (combine_range_index g l vs i).
  apply map_ext. exact H.
Qed.

Lemma flat_map_flat_map {A B C : Type} (f : B -> list C) (g : A -> list B)
  (l : list A) :
  flat_map f (flat_map g l) = flat_map (fun x => flat_map f (g x)) l.
Proof.
  induction l as [|x l IH]; simpl; [reflexivity|].
  now rewrite flat_map_app, IH.
Qed.

Lemma or_none_match {A B C : Type} (f : A -> B) (g : B -> C) (d : C)
  (found : list A) :
  match map f found with
  | [] => [d]
  | o :: found' => map g (o :: found')
  end
  = map (fun o => match o with None => d | Some a => g (f a) end) (or_none found).
Proof.
  destruct found as [|a found]; [reflexivity|].
  unfold or_none. cbn [map]. f_equal. now rewrite !map_map.
Qed.

Lemma or_none_match_app {A B C : Type} (f1 f2 : A -> B) (g : B -> C) (d : C)
  (found1 found2 : list A) :
  (forall a, g (f2 a) = g (f1 a)) ->
  match map f1 found1 ++ map f2 found2 with
  | [] => [d]
  | o :: found' => map g (o :: found')
  end
  = map (fun o => match o with None => d | Some a => g (f1 a) end)
        (or_none (found1 ++ found2)).
Proof.
  intros Hg.
  assert (H : map g (map f1 found1 ++ map f2 found2)
              = map (fun o => match o with None => d | Some a => g (f1 a) end)
                    (map Some (found1 ++ found2))).
  { rewrite !map_app, !map_map. f_equal. apply map_ext. exact Hg. }
  destruct found1 as [|a found1].
  - destruct found2 as [|a found2]; [reflexivity|]. exact H.
  - exact H.
Qed.

Section datapoints_table.

Variable json_loads : string -> result Payload.t.
Variable to_datetime : cell -> result cell.

Lemma timestamps_column (result_ : list Datapoint.t) :
  result_ <> [] ->
  getitem (DataFrame_of (map (datapoint_dict_of json_loads) result_)) "timestamp"
  = Ok (map (fun d => cell_of (Datapoint.timestamp d)) result_).
Proof.
  intros Hne.
  rewrite (DataFrame_of_records (datapoint_dict_of json_loads)
             (fun d => [cell_of (Datapoint.data_id d);
                        cell_of (Datapoint.timestamp d);
                        cell_of (tag_assignment_id_of d);
                        cell_of (parsed_anchor_id json_loads d);
                        Float (parsed_rssi json_loads d)])
             ["data_id"; "timestamp"; "tag_assignment_id"; "anchor_id"; "rssi"]);
    try reflexivity; try exact Hne.
  rewrite (getitem_at _ "timestamp" 1) by reflexivity.
  cbn [rows].
  rewrite (map_range_index _ (fun cells : list cell => nth 1 cells NaN)) by reflexivity.
  now rewrite map_map.
Qed.

(** Lines 125-127: the frame of the parsed datapoints, its timestamps
    converted, indexed by data id. *)
Lemma datapoints_frame {B : Type} (result_ : list Datapoint.t)
  (timestamps : list cell) (k : DataFrame -> result B) :
  result_ <> [] ->
  for_each to_datetime (map (fun d => cell_of (Datapoint.timestamp d)) result_)
  = Ok timestamps ->
  (let? ts := getitem (DataFrame_of (map (datapoint_dict_of json_loads) result_))
                "timestamp" in
   let? ts := for_each to_datetime ts in
   let? datapoints_df :=
     setitem (DataFrame_of (map (datapoint_dict_of json_loads) result_))
       "timestamp" ts in
   let? datapoints_df := set_index datapoints_df "data_id" in
   k datapoints_df)%result
  = k {| index_name := Some "data_id";
         columns := ["timestamp"; "tag_assignment_id"; "anchor_id"; "rssi"];
         rows :=
           map (fun dv =>
                  (cell_of (Datapoint.data_id (fst dv)),
                   [snd dv;
                    cell_of (tag_assignment_id_of (fst dv));
                    cell_of (parsed_anchor_id json_loads (fst dv));
                    Float (parsed_rssi json_loads (fst dv))]))
               (combine result_ timestamps) |}.
Proof.
  intros Hne Hts.
  rewrite (DataFrame_of_records (datapoint_dict_of json_loads)
             (fun d => [cell_of (Datapoint.data_id d);
                        cell_of (Datapoint.timestamp d);
                        cell_of (tag_assignment_id_of d);
                        cell_of (parsed_anchor_id json_loads d);
                        Float (parsed_rssi json_loads d)])
             ["data_id"; "timestamp"; "tag_assignment_id"; "anchor_id"; "rssi"]);
    try reflexivity; try exact Hne.
  rewrite (getitem_at _ "timestamp" 1) by reflexivity.
  cbn [rbind Ok rows].
  rewrite (map_range_index _ (fun cells : list cell => nth 1 cells NaN)) by reflexivity.
  rewrite map_map. cbn [nth].
  rewrite Hts. cbn [rbind Ok].
  rewrite (setitem_at _ "timestamp" timestamps 1);
    [|cbn [rows]; rewrite range_index_length, length_map;
      rewrite (for_each_length _ _ _ Hts); now rewrite length_map
     |reflexivity].
  cbn [rbind Ok rows columns index_name].
  rewrite (set_index_at _ "data_id" 0) by reflexivity.
  cbn [rbind Ok rows columns index_name].
  rewrite map_map.
  rewrite (map_combine_range_index _
             (fun (cells : list cell) (v : cell) =>
                (nth 0 (replace_nth 1 v cells) NaN,
                 remove_nth 0 (replace_nth 1 v cells)))) by reflexivity.
  rewrite combine_map_l, map_map.
  reflexivity.
Qed.

(** The joins and the choice of columns, lines 128-153. *)
Lemma datapoints_table_joins (result_ : list Datapoint.t)
  (tags anchors : list Assignment.t)
  (return_tag_name return_tag_tag_id return_anchor_name : bool)
  (timestamps : list cell) :
  result_ <> [] ->
  for_each to_datetime (map (fun d => cell_of (Datapoint.timestamp d)) result_)
  = Ok timestamps ->
  (let? ts := getitem (DataFrame_of (map (datapoint_dict_of json_loads) result_))
                "timestamp" in
   let? ts := for_each to_datetime ts in
   let? datapoints_df :=
     setitem (DataFrame_of (map (datapoint_dict_of json_loads) result_))
       "timestamp" ts in
   let? datapoints_df := set_index datapoints_df "data_id" in
   let? datapoints_df :=
     join datapoints_df (assignments_frame (Some "tag") tags) "tag_assignment_id" in
   let? anchor_ids_df :=
     anchor_ids_table (assignments_frame (Some "anchor") anchors) in
   let? datapoints_df := join datapoints_df anchor_ids_df "anchor_id" in
   Ok (reindex datapoints_df
         (return_columns return_tag_name return_tag_tag_id return_anchor_name)))%result
  = Ok {| index_name := Some "data_id";
          columns := return_columns return_tag_name return_tag_tag_id
                       return_anchor_name;
          rows := table_rows json_loads return_tag_name return_tag_tag_id
                    return_anchor_name tags anchors result_ timestamps |}.
Proof.
  intros Hne Hts.
  rewrite (datapoints_frame result_ timestamps) by assumption.
  rewrite (join_at _ _ "tag_assignment_id" 1) by reflexivity.
  cbn [rbind Ok].
  rewrite anchor_ids_table_frame. cbn [rbind Ok].
  rewrite (join_at _ _ "anchor_id" 2) by reflexivity.
  cbn [rbind Ok].
  unfold reindex, table_rows. cbn [index_name columns rows].
  f_equal. f_equal.
  generalize (combine result_ timestamps). intros l.
  rewrite flat_map_map_l, flat_map_flat_map, map_flat_map_l.
  apply flat_map_ext. intros [d t].
  cbn [fst snd nth rows assignments_frame].
  rewrite filter_map_comm, or_none_match.
  rewrite flat_map_map_l, map_flat_map_l.
  unfold datapoint_rows, tag_matches.
  apply flat_map_ext. intros tag.
  cbn [rows anchor_ids_frame].
  destruct tag as [tag|]; cbn [fst snd nth app assignment_row];
    rewrite filter_app, !filter_map_comm;
    rewrite or_none_match_app by reflexivity;
    rewrite map_map; unfold anchor_matches;
    apply map_ext; intros [anchor|];
    destruct return_tag_name, return_tag_tag_id, return_anchor_name;
    reflexivity.
Qed.

(** The table, when there is one: the datapoints are not empty, their
    timestamps convert, and the rows are those of [table_rows]. *)
Lemma datapoints_table_Ok (result_ : list Datapoint.t)
  (tags anchors : list Assignment.t)
  (return_tag_name return_tag_tag_id return_anchor_name : bool) (df : DataFrame) :
  datapoints_table json_loads to_datetime result_
    (assignments_frame (Some "tag") tags) (assignments_frame (Some "anchor") anchors)
    return_tag_name return_tag_tag_id return_anchor_name = Ok df ->
  exists timestamps,
    for_each to_datetime (map (fun d => cell_of (Datapoint.timestamp d)) result_)
    = Ok timestamps
    /\ df = {| index_name := Some "data_id";
               columns := return_columns return_tag_name return_tag_tag_id
                            return_anchor_name;
               rows := table_rows json_loads return_tag_name return_tag_tag_id
                         return_anchor_name tags anchors result_ timestamps |}.
Proof.
  unfold datapoints_table.
  destruct (for_each (datapoint_dict json_loads) result_) as [e|data] eqn:Hdata;
    [discriminate|].
  apply (for_each_map _ (datapoint_dict_of json_loads)) in Hdata;
    [|apply datapoint_dict_Ok].
  subst data. cbn [rbind].
  destruct result_ as [|d0 result_]; [discriminate|].
  destruct (for_each to_datetime
              (map (fun d => cell_of (Datapoint.timestamp d)) (d0 :: result_)))
    as [e|timestamps] eqn:Hts.
  - rewrite timestamps_column by discriminate. cbn [rbind Ok].
    rewrite Hts. discriminate.
  - rewrite (datapoints_table_joins (d0 :: result_) tags anchors _ _ _ timestamps)
      by (discriminate || exact Hts).
    intros H. exists timestamps. split; [reflexivity|].
    symmetry. now inversion H.
Qed.

(** The table is there when the datapoints are not empty, each of them
    parses, and the timestamps convert. *)
Lemma datapoints_table_total (result_ : list Datapoint.t)
  (tags anchors : list Assignment.t)
  (return_tag_name return_tag_tag_id return_anchor_name : bool)
  (timestamps : list cell) :
  result_ <> [] ->
  for_each (datapoint_dict json_loads) result_
  = Ok (map (datapoint_dict_of json_loads) result_) ->
  for_each to_datetime (map (fun d => cell_of (Datapoint.timestamp d)) result_)
  = Ok timestamps ->
  datapoints_table json_loads to_datetime result_
    (assignments_frame (Some "tag") tags) (assignments_frame (Some "anchor") anchors)
    return_tag_name return_tag_tag_id return_anchor_name
  = Ok {| index_name := Some "data_id";
          columns := return_columns return_tag_name return_tag_tag_id
                       return_anchor_name;
          rows := table_rows json_loads return_tag_name return_tag_tag_id
                    return_anchor_name tags anchors result_ timestamps |}.
Proof.
  intros Hne Hdata Hts. unfold datapoints_table.
  rewrite Hdata. cbn [rbind Ok].
  now apply datapoints_table_joins.
Qed.

End datapoints_table.

(** ** Counting rows *)

Lemma cell_eqb_cell_of (x y : option string) :
  cell_eqb (cell_of x) (cell_of y) = true <-> x = y.
Proof.
  destruct x as [s|], y as [t|]; cbn; split; intros H;
    try discriminate; try reflexivity.
  - apply String.eqb_eq in H. now subst.
  - inversion H. apply String.eqb_refl.
Qed.

Lemma filter_NoDup_length {A : Type} (p : A -> bool) (l : list A) :
  NoDup l ->
  (forall x y, p x = true -> p y = true -> x = y) ->
  (List.length (filter p l) <= 1)%nat.
Proof.
  intros Hnd Hp. induction Hnd as [|x l Hx Hnd IH]; simpl; [lia|].
  destruct (p x) eqn:Hpx; [|exact IH].
  assert (Hnone : filter p l = []).
  { destruct (filter p l) as [|y l'] eqn:Hf; [reflexivity|].
    assert (Hy : In y (filter p l)) by (rewrite Hf; now left).
    apply filter_In in Hy. destruct Hy as [Hy Hpy].
    rewrite (Hp x y Hpx Hpy) in Hx. contradiction. }
  rewrite Hnone. simpl. lia.
Qed.

Lemma filter_key_length {A : Type} (key : A -> option string) (k : option string)
  (l : list A) :
  List.length (filter (fun a => cell_eqb (cell_of (key a)) (cell_of k)) l)
  = List.length (filter (fun x => cell_eqb (cell_of x) (cell_of k)) (map key l)).
Proof. now rewrite filter_map_comm, length_map. Qed.

Lemma same_key (k x y : option string) :
  cell_eqb (cell_of x) (cell_of k) = true ->
  cell_eqb (cell_of y) (cell_of k) = true -> x = y.
Proof.
  intros Hx Hy. apply cell_eqb_cell_of in Hx, Hy. congruence.
Qed.

Lemma tag_matches_unique (tags : list Assignment.t) (k : option string) :
  NoDup (map Assignment.assignment_id tags) ->
  (List.length (tag_matches tags (cell_of k)) <= 1)%nat.
Proof.
  intros Hnd. unfold tag_matches.
  rewrite (filter_key_length Assignment.assignment_id).
  apply filter_NoDup_length; [exact Hnd|apply same_key].
Qed.

Lemma anchor_matches_unique (anchors : list Assignment.t) (k : option string) :
  NoDup (map Assignment.assignment_id anchors
         ++ map (fun a => Device.device_id (device_of a)) anchors) ->
  (List.length (anchor_matches anchors (cell_of k)) <= 1)%nat.
Proof.
  intros Hnd. unfold anchor_matches.
  rewrite length_app.
  rewrite (filter_key_length Assignment.assignment_id).
  rewrite (filter_key_length (fun a => Device.device_id (device_of a))).
  rewrite <- length_app, <- filter_app.
  apply filter_NoDup_length; [exact Hnd|apply same_key].
Qed.

Lemma or_none_cases {A : Type} (found : list A) :
  exists o rest, or_none found = o :: rest
                 /\ ((List.length found <= 1)%nat -> rest = []).
Proof.
  destruct found as [|a [|b found]]; cbn.
  - exists None, []. now split.
  - exists (Some a), []. now split.
  - exists (Some a), (Some b :: map Some found). split; [reflexivity|].
    intros H. lia.
Qed.

Section rows_of_datapoints.

Variable json_loads : string -> result Payload.t.
Variables return_tag_name return_tag_tag_id return_anchor_name : bool.
Variables tags anchors : list Assignment.t.

(** Every row of a datapoint carries its data id and comes from a pair of
    joined assignments. *)
Lemma datapoint_rows_In (datum : Datapoint.t) (t : cell) (r : cell * list cell) :
  In r (datapoint_rows json_loads return_tag_name return_tag_tag_id
          return_anchor_name tags anchors datum t) ->
  exists tag anchor,
    r = table_row json_loads return_tag_name return_tag_tag_id
          return_anchor_name datum t tag anchor
    /\ In anchor (or_none (anchor_matches anchors
                             (cell_of (parsed_anchor_id json_loads datum)))).
Proof.
  unfold datapoint_rows. intros H.
  apply in_flat_map in H. destruct H as [tag [_ H]].
  apply in_map_iff in H. destruct H as [anchor [Hr Hanchor]].
  exists tag, anchor. now split.
Qed.

(** A datapoint has at least one row, and one only when it matches at
    most one tag assignment and at most one anchor assignment. *)
Lemma datapoint_rows_index (datum : Datapoint.t) (t : cell) :
  exists rest,
    map fst (datapoint_rows json_loads return_tag_name return_tag_tag_id
               return_anchor_name tags anchors datum t)
    = cell_of (Datapoint.data_id datum) :: rest
    /\ ((List.length (tag_matches tags (cell_of (tag_assignment_id_of datum))) <= 1)%nat ->
        (List.length (anchor_matches anchors
                        (cell_of (parsed_anchor_id json_loads datum))) <= 1)%nat ->
        rest = []).
Proof.
  unfold datapoint_rows.
  destruct (or_none_cases (tag_matches tags (cell_of (tag_assignment_id_of datum))))
    as [tag [tags' [-> Htag]]].
  destruct (or_none_cases
              (anchor_matches anchors (cell_of (parsed_anchor_id json_loads datum))))
    as [anchor [anchors' [Heq Hanchor]]].
  cbn [flat_map]. rewrite Heq. cbn [map app fst table_row].
  eexists. split; [reflexivity|].
  intros H1 H2. rewrite (Htag H1), (Hanchor H2). reflexivity.
Qed.

Lemma table_rows_index (result_ : list Datapoint.t) (timestamps : list cell) :
  List.length timestamps = List.length result_ ->
  (List.length result_
   <= List.length (table_rows json_loads return_tag_name return_tag_tag_id
                     return_anchor_name tags anchors result_ timestamps))%nat
  /\ (forall datum, In datum result_ ->
        In (cell_of (Datapoint.data_id datum))
           (map fst (table_rows json_loads return_tag_name return_tag_tag_id
                       return_anchor_name tags anchors result_ timestamps)))
  /\ (NoDup (map Assignment.assignment_id tags) ->
      NoDup (map Assignment.assignment_id anchors
             ++ map (fun a => Device.device_id (device_of a)) anchors) ->
      map fst (table_rows json_loads return_tag_name return_tag_tag_id
                 return_anchor_name tags anchors result_ timestamps)
      = map (fun d => cell_of (Datapoint.data_id d)) result_).
Proof.
  unfold table_rows. revert timestamps.
  induction result_ as [|d l IH]; intros [|t ts] Hlen; try discriminate.
  - cbn. repeat split; [lia|contradiction].
  - injection Hlen as Hlen. destruct (IH ts Hlen) as [IH1 [IH2 IH3]].
    cbn [combine flat_map fst snd].
    destruct (datapoint_rows_index d t) as [rest [Hidx Hone]].
    repeat split.
    + rewrite length_app.
      rewrite <- (length_map fst (datapoint_rows _ _ _ _ _ _ d t)), Hidx.
      cbn [List.length]. lia.
    + intros datum [<-|Hin]; rewrite map_app; apply in_or_app.
      * left. rewrite Hidx. now left.
      * right. now apply IH2.
    + intros Htags Hanchors. rewrite map_app, Hidx, (IH3 Htags Hanchors).
      rewrite Hone; [reflexivity| |].
      * now apply tag_matches_unique.
      * now apply anchor_matches_unique.
Qed.

End rows_of_datapoints.

(** ** [fetch_ble_datapoints] *)

Section ble_datapoints.

Variable mh : minimal_honeycomb.
Variable json_loads : string -> result Payload.t.
Variable to_datetime : cell -> result cell.

Variables start end_ : option Z.
Variables environment_id environment_name : option string.
Variables return_tag_name return_tag_tag_id return_anchor_name : bool.
Variables tag_device_types anchor_device_types : option (list string).
Variable chunk_size : Z.
Variable client : option Client.
Variable creds : credentials.

Lemma fetch_ble_datapoints_outcome :
  outcome (fetch_ble_datapoints mh json_loads to_datetime start end_
             environment_id environment_name
             return_tag_name return_tag_tag_id return_anchor_name
             tag_device_types anchor_device_types chunk_size client creds)
  = match outcome (fetch_environment_id mh environment_id environment_name
                     client creds) with
    | inl e => inl e
    | inr None => Raise (ValueError "Must specify environment")
    | inr (Some env) =>
        match outcome (fetch_device_assignments mh env start end_ tag_device_types
                         (Some "tag") chunk_size client creds) with
        | inl e => inl e
        | inr tag_assignments_df =>
            match outcome (fetch_device_assignments mh env start end_
                             anchor_device_types (Some "anchor") chunk_size
                             client creds) with
            | inl e => inl e
            | inr anchor_assignments_df =>
                match outcome (search_ble_datapoints mh
                                 (datapoint_query_list mh
                                    (unique (index tag_assignments_df)) start end_)
                                 datapoint_return_data chunk_size client creds) with
                | inl e => inl e
                | inr result_ =>
                    datapoints_table json_loads to_datetime result_
                      tag_assignments_df anchor_assignments_df
                      return_tag_name return_tag_tag_id return_anchor_name
                end
            end
        end
    end.
Proof.
  unfold fetch_ble_datapoints. rewrite outcome_bind.
  destruct (outcome (fetch_environment_id mh environment_id environment_name
                       client creds)) as [e|[env|]]; try reflexivity.
  rewrite outcome_bind.
  destruct (outcome (fetch_device_assignments mh env start end_ tag_device_types
                       (Some "tag") chunk_size client creds)) as [e|tags_df];
    [reflexivity|].
  rewrite outcome_bind.
  destruct (outcome (fetch_device_assignments mh env start end_ anchor_device_types
                       (Some "anchor") chunk_size client creds)) as [e|anchors_df];
    [reflexivity|].
  rewrite outcome_bind.
  now destruct (outcome (search_ble_datapoints mh _ _ chunk_size client creds)).
Qed.

Variable env : string.
Variable assignments : list Assignment.t.
Variable result_ : list Datapoint.t.

Hypothesis environment_resolved :
  outcome (fetch_environment_id mh environment_id environment_name client creds)
  = Ok (Some env).

Hypothesis assignments_returned :
  outcome (search_assignments mh (assignment_query_list env)
             assignment_return_data chunk_size client
             (without_client_secret creds)) = Ok assignments.

Let tags : list Assignment.t :=
  kept_assignments mh assignments start end_ tag_device_types.

Let anchors : list Assignment.t :=
  kept_assignments mh assignments start end_ anchor_device_types.

Hypothesis datapoints_returned :
  outcome (search_ble_datapoints mh
             (datapoint_query_list mh
                (unique (index (assignments_frame (Some "tag") tags))) start end_)
             datapoint_return_data chunk_size client creds) = Ok result_.

(** The table of [fetch_ble_datapoints], when there is one. *)
Lemma fetch_ble_datapoints_Ok (df : DataFrame) :
  outcome (fetch_ble_datapoints mh json_loads to_datetime start end_
             environment_id environment_name
             return_tag_name return_tag_tag_id return_anchor_name
             tag_device_types anchor_device_types chunk_size client creds) = Ok df ->
  exists timestamps,
    List.length timestamps = List.length result_
    /\ df = {| index_name := Some "data_id";
               columns := return_columns return_tag_name return_tag_tag_id
                            return_anchor_name;
               rows := table_rows json_loads return_tag_name return_tag_tag_id
                         return_anchor_name tags anchors result_ timestamps |}.
Proof.
  rewrite fetch_ble_datapoints_outcome, environment_resolved.
  cbv beta iota delta [Ok].
  destruct (outcome (fetch_device_assignments mh env start end_ tag_device_types
                       (Some "tag") chunk_size client creds))
    as [e|tags_df] eqn:Htags; [intros H; discriminate H|].
  apply (fetch_device_assignments_Ok mh _ _ _ _ _ _ _ _ _ _ assignments_returned)
    in Htags.
  destruct (outcome (fetch_device_assignments mh env start end_ anchor_device_types
                       (Some "anchor") chunk_size client creds))
    as [e|anchors_df] eqn:Hanchors; [intros H; discriminate H|].
  apply (fetch_device_assignments_Ok mh _ _ _ _ _ _ _ _ _ _ assignments_returned)
    in Hanchors.
  subst tags_df anchors_df.
  pose proof datapoints_returned as Hsearch.
  unfold tags, kept_assignments in Hsearch.
  rewrite Hsearch. cbv beta iota delta [Ok].
  intros H. apply datapoints_table_Ok in H.
  destruct H as [timestamps [Hts Hdf]]. exists timestamps. split; [|exact Hdf].
  apply for_each_length in Hts. now rewrite length_map in Hts.
Qed.

(** C1, as the code has it: the table keeps every datapoint the search
    returned, with at least one row each, and has exactly one row per
    datapoint, in the order of the answer, when the tag assignments have
    distinct ids and no value occurs twice among the assignment ids and
    the device ids of the anchor assignments. *)
Theorem fetch_ble_datapoints_rows (df : DataFrame) :
  outcome (fetch_ble_datapoints mh json_loads to_datetime start end_
             environment_id environment_name
             return_tag_name return_tag_tag_id return_anchor_name
             tag_device_types anchor_device_types chunk_size client creds) = Ok df ->
  (List.length result_ <= List.length (rows df))%nat
  /\ (forall datum, In datum result_ ->
        In (cell_of (Datapoint.data_id datum)) (index df))
  /\ (NoDup (map Assignment.assignment_id tags) ->
      NoDup (map Assignment.assignment_id anchors
             ++ map (fun a => Device.device_id (device_of a)) anchors) ->
      index df = map (fun d => cell_of (Datapoint.data_id d)) result_).
Proof.
  intros Hdf. apply fetch_ble_datapoints_Ok in Hdf.
  destruct Hdf as [timestamps [Hlen ->]]. unfold index. cbn [rows].
  exact (table_rows_index json_loads return_tag_name return_tag_tag_id
           return_anchor_name tags anchors result_ timestamps Hlen).
Qed.

(** C7: every row of the table comes from a datapoint the search returned
    and either takes its anchor columns from an anchor assignment whose
    assignment id or whose device id is the anchor id parsed from the
    datapoint, or has empty anchor columns, and then no anchor assignment
    has this anchor id as its assignment id or its device id. *)
Theorem fetch_ble_datapoints_anchor_columns (df : DataFrame) (r : cell * list cell) :
  outcome (fetch_ble_datapoints mh json_loads to_datetime start end_
             environment_id environment_name
             return_tag_name return_tag_tag_id return_anchor_name
             tag_device_types anchor_device_types chunk_size client creds) = Ok df ->
  In r (rows df) ->
  exists datum,
    In datum result_
    /\ fst r = cell_of (Datapoint.data_id datum)
    /\ ((exists a,
           In a anchors
           /\ (Assignment.assignment_id a = parsed_anchor_id json_loads datum
               \/ Device.device_id (device_of a) = parsed_anchor_id json_loads datum)
           /\ cell_at (columns df) "anchor_assignment_id" (snd r)
              = cell_of (Assignment.assignment_id a)
           /\ cell_at (columns df) "anchor_device_id" (snd r)
              = cell_of (Device.device_id (device_of a))
           /\ (return_anchor_name = true ->
               cell_at (columns df) "anchor_name" (snd r)
               = cell_of (Device.name (device_of a))))
        \/ ((forall a, In a anchors ->
               Assignment.assignment_id a <> parsed_anchor_id json_loads datum
               /\ Device.device_id (device_of a) <> parsed_anchor_id json_loads datum)
            /\ cell_at (columns df) "anchor_assignment_id" (snd r) = NaN
            /\ cell_at (columns df) "anchor_device_id" (snd r) = NaN
            /\ cell_at (columns df) "anchor_name" (snd r) = NaN)).
Proof.
  intros Hdf Hr. apply fetch_ble_datapoints_Ok in Hdf.
  destruct Hdf as [timestamps [Hlen ->]]. cbn [rows columns] in *.
  unfold table_rows in Hr. apply in_flat_map in Hr.
  destruct Hr as [[datum t] [Hdatum Hr]]. cbn [fst snd] in Hr.
  apply in_combine_l in Hdatum.
  apply datapoint_rows_In in Hr. destruct Hr as [tag [anchor [-> Hanchor]]].
  exists datum. split; [exact Hdatum|]. split; [reflexivity|].
  unfold or_none in Hanchor.
  destruct (anchor_matches anchors (cell_of (parsed_anchor_id json_loads datum)))
    as [|a0 found] eqn:Hfound.
  - right. destruct Hanchor as [<-|[]]. split.
    + intros a Ha.
      assert (Hno : ~ In a (anchor_matches anchors
                              (cell_of (parsed_anchor_id json_loads datum))))
        by (rewrite Hfound; intros []).
      unfold anchor_matches in Hno. rewrite in_app_iff, !filter_In in Hno.
      split; intros Heq; apply Hno; [left|right]; (split; [exact Ha|]);
        now apply cell_eqb_cell_of.
    + destruct return_tag_name, return_tag_tag_id, return_anchor_name;
        repeat split; reflexivity.
  - left. apply in_map_iff in Hanchor. destruct Hanchor as [a [<- Ha]].
    rewrite <- Hfound in Ha. unfold anchor_matches in Ha.
    rewrite in_app_iff, !filter_In in Ha.
    exists a. split; [tauto|]. split.
    + destruct Ha as [[_ Heq]|[_ Heq]]; apply cell_eqb_cell_of in Heq; tauto.
    + destruct return_tag_name, return_tag_tag_id, return_anchor_name;
        repeat split; try reflexivity; discriminate.
Qed.

End ble_datapoints.

(** C5: with neither an environment id nor an environment name,
    [fetch_ble_datapoints] raises ValueError for the missing environment
    and sends no query; [fetch_environment_id] has returned [None]. *)
Theorem fetch_ble_datapoints_without_environment (mh : minimal_honeycomb)
  (json_loads : string -> result Payload.t) (to_datetime : cell -> result cell)
  (start end_ : option Z)
  (return_tag_name return_tag_tag_id return_anchor_name : bool)
  (tag_device_types anchor_device_types : option (list string))
  (chunk_size : Z) (client : option Client) (creds : credentials) :
  outcome (fetch_environment_id mh None None client creds) = Ok None
  /\ outcome (fetch_ble_datapoints mh json_loads to_datetime start end_ None None
                return_tag_name return_tag_tag_id return_anchor_name
                tag_device_types anchor_device_types chunk_size client creds)
     = Raise (ValueError "Must specify environment")
  /\ queries (fetch_ble_datapoints mh json_loads to_datetime start end_ None None
                return_tag_name return_tag_tag_id return_anchor_name
                tag_device_types anchor_device_types chunk_size client creds)
     = [].
Proof. repeat split. Qed.

Lemma timestamp_passes_source (decode : string -> option Z) (t : Z)
  (ids : list cell) :
  timestamp_passes decode t (Query.Build "source" "IN" (values ids)) = true.
Proof. reflexivity. Qed.

Lemma timestamp_passes_GTE (decode : string -> option Z) (t s : Z) (v : string) :
  decode v = Some s ->
  timestamp_passes decode t (Query.Build "timestamp" "GTE" (value v)) = Z.leb s t.
Proof. intros H. unfold timestamp_passes. cbn. now rewrite H. Qed.

Lemma timestamp_passes_LTE (decode : string -> option Z) (t e : Z) (v : string) :
  decode v = Some e ->
  timestamp_passes decode t (Query.Build "timestamp" "LTE" (value v)) = Z.leb t e.
Proof. intros H. unfold timestamp_passes. cbn. now rewrite H. Qed.


(** ** The small service, run *)

(** The table of the three datapoints of the small service between 0 and
    40, when the anchor device has one assignment only. *)
Lemma fetch_ble_datapoints_rows_witness :
  exists df,
    outcome (fetch_ble_datapoints (Demo.mh Demo.service) Demo.json_loads
               Demo.to_datetime (Some 0%Z) (Some 40%Z) None (Some "Classroom")
               false false false default_tag_device_types
               default_anchor_device_types 100 None Demo.no_credentials) = Ok df
    /\ index df = [Str "dp-1"; Str "dp-2"; Str "dp-3"].
Proof.
  exists {| index_name := Some "data_id";
            columns := return_columns false false false;
            rows := table_rows Demo.json_loads false false false
                      [Demo.tag_assignment] [Demo.anchor_assignment_1]
                      Demo.datapoints
                      [Timestamp 10; Timestamp 20; Timestamp 30] |}.
  split; [run|].
  refine (eq_trans
            (proj2 (proj2
               (fetch_ble_datapoints_rows (Demo.mh Demo.service) Demo.json_loads
                  Demo.to_datetime (Some 0%Z) (Some 40%Z) None (Some "Classroom")
                  false false false default_tag_device_types
                  default_anchor_device_types 100 None Demo.no_credentials
                  "env-1" Demo.assignments Demo.datapoints _ _ _ _ _)) _ _) _).
  - run.
  - run.
  - run.
  - run.
  - distinct.
  - distinct.
  - run.
Defined.

(** C1 fails as stated: the anchor device of the small service has two
    assignments, the datapoint names it by its device id, and the table
    has two rows for the one datapoint the search returned. *)
Lemma fetch_ble_datapoints_duplicates_rows :
  outcome (search_ble_datapoints (Demo.mh Demo.reassigned_service)
             (datapoint_query_list (Demo.mh Demo.reassigned_service)
                [Str "tag-asg-1"] None None)
             datapoint_return_data 100 (Some Demo.reassigned_service)
             Demo.no_credentials) = Ok [Demo.datapoint_1]
  /\ exists df,
       outcome (fetch_ble_datapoints (Demo.mh Demo.reassigned_service)
                  Demo.json_loads Demo.to_datetime None None (Some "env-1") None
                  false false false default_tag_device_types
                  default_anchor_device_types 100 (Some Demo.reassigned_service)
                  Demo.no_credentials) = Ok df
       /\ index df = [Str "dp-1"; Str "dp-1"]
       /\ List.length (rows df) <> List.length [Demo.datapoint_1].
Proof.
  split; [run|].
  exists {| index_name := Some "data_id";
            columns := return_columns false false false;
            rows := table_rows Demo.json_loads false false false
                      [Demo.tag_assignment]
                      [Demo.anchor_assignment_1; Demo.anchor_assignment_2]
                      [Demo.datapoint_1] [Timestamp 10] |}.
  split; [run|]. split; [run|]. vm_compute. discriminate.
Qed.

(** The rows of the small service between 0 and 40: the first datapoint
    names the anchor by its device id, the second by its assignment id,
    the third names no anchor of the table. *)
Lemma fetch_ble_datapoints_anchor_columns_witness :
  exists df,
    outcome (fetch_ble_datapoints (Demo.mh Demo.service) Demo.json_loads
               Demo.to_datetime (Some 0%Z) (Some 40%Z) None (Some "Classroom")
               false false true default_tag_device_types
               default_anchor_device_types 100 None Demo.no_credentials) = Ok df
    /\ rows df
       = [(Str "dp-1",
           [Timestamp 10; Str "tag-asg-1"; Str "dev-t1"; Str "anc-asg-1";
            Str "dev-a1"; Str "Anchor 1"; Float Demo.rssi_67]);
          (Str "dp-2",
           [Timestamp 20; Str "tag-asg-1"; Str "dev-t1"; Str "anc-asg-1";
            Str "dev-a1"; Str "Anchor 1"; Float Demo.rssi_67]);
          (Str "dp-3",
           [Timestamp 30; Str "tag-asg-1"; Str "dev-t1"; NaN; NaN; NaN;
            Float Demo.rssi_67])]
    /\ forall r, In r (rows df) ->
         exists datum,
           In datum Demo.datapoints
           /\ fst r = cell_of (Datapoint.data_id datum)
           /\ ((exists a,
                  In a [Demo.anchor_assignment_1]
                  /\ (Assignment.assignment_id a
                      = parsed_anchor_id Demo.json_loads datum
                      \/ Device.device_id (device_of a)
                         = parsed_anchor_id Demo.json_loads datum)
                  /\ cell_at (columns df) "anchor_assignment_id" (snd r)
                     = cell_of (Assignment.assignment_id a)
                  /\ cell_at (columns df) "anchor_device_id" (snd r)
                     = cell_of (Device.device_id (device_of a))
                  /\ (true = true ->
                      cell_at (columns df) "anchor_name" (snd r)
                      = cell_of (Device.name (device_of a))))
               \/ ((forall a, In a [Demo.anchor_assignment_1] ->
                      Assignment.assignment_id a
                      <> parsed_anchor_id Demo.json_loads datum
                      /\ Device.device_id (device_of a)
                         <> parsed_anchor_id Demo.json_loads datum)
                   /\ cell_at (columns df) "anchor_assignment_id" (snd r) = NaN
                   /\ cell_at (columns df) "anchor_device_id" (snd r) = NaN
                   /\ cell_at (columns df) "anchor_name" (snd r) = NaN)).
Proof.
  exists {| index_name := Some "data_id";
            columns := return_columns false false true;
            rows := table_rows Demo.json_loads false false true
                      [Demo.tag_assignment] [Demo.anchor_assignment_1]
                      Demo.datapoints
                      [Timestamp 10; Timestamp 20; Timestamp 30] |}.
  split; [run|]. split; [run|].
  intros r Hr.
  refine (fetch_ble_datapoints_anchor_columns (Demo.mh Demo.service)
            Demo.json_loads Demo.to_datetime (Some 0%Z) (Some 40%Z) None
            (Some "Classroom") false false true default_tag_device_types
            default_anchor_device_types 100 None Demo.no_credentials
            "env-1" Demo.assignments Demo.datapoints _ _ _ _ r _ Hr); run.
Defined.


(** * Further properties *)

(** ** Errors of [fetch_device_assignments] *)

Lemma collect_assignments_missing_device (dts : option (list string))
  (l : list Assignment.t) :
  (exists a, In a l /\ Assignment.assigned a = None) ->
  collect_assignments dts l = Raise no_get.
Proof.
  induction l as [|a l IH]; intros [a0 [Hin Hnone]]; [contradiction|].
  cbn [collect_assignments].
  destruct a as [id st en [dev|]].
  - assert (Hl : collect_assignments dts l = Raise no_get).
    { apply IH. destruct Hin as [<-|Hin]; [discriminate|]. now exists a0. }
    rewrite Hl. unfold device_type_requested, assignment_dict.
    destruct dts as [dts|]; cbn; [|reflexivity].
    now destruct (in_device_types (Device.device_type dev) dts).
  - unfold device_type_requested, assignment_dict.
    destruct dts as [dts|]; reflexivity.
Qed.

Section device_assignment_errors.

Variable mh : minimal_honeycomb.
Variable environment_id : string.
Variables start end_ : option Z.
Variable device_types : option (list string).
Variable prefix : option string.
Variable chunk_size : Z.
Variable client : option Client.
Variable creds : credentials.
Variable result_ : list Assignment.t.

Hypothesis assignments_returned :
  outcome (search_assignments mh (assignment_query_list environment_id)
             assignment_return_data chunk_size client
             (without_client_secret creds)) = Ok result_.

(** X1: when the assignments have devices and none of them passes both
    filters, the empty answer included, there is no table:
    [set_index] raises KeyError on the frame without columns. *)
Theorem fetch_device_assignments_nothing_kept :
  (forall a, In a (filter_assignments mh result_ start end_) ->
             Assignment.assigned a <> None) ->
  kept_assignments mh result_ start end_ device_types = [] ->
  outcome (fetch_device_assignments mh environment_id start end_ device_types
             prefix chunk_size client creds)
  = Raise (KeyError "None of ['assignment_id'] are in the columns").
Proof.
  intros Hall Hnone.
  rewrite fetch_device_assignments_outcome, assignments_returned.
  cbv beta iota delta [Ok]. unfold assignments_table.
  rewrite (collect_assignments_total device_types _ Hall).
  unfold kept_assignments in Hnone. rewrite Hnone. reflexivity.
Qed.

(** X2: an assignment without a device among those that pass the time
    filter makes [fetch_device_assignments] raise AttributeError, whatever
    the device types requested. *)
Theorem fetch_device_assignments_missing_device (a : Assignment.t) :
  In a (filter_assignments mh result_ start end_) ->
  Assignment.assigned a = None ->
  outcome (fetch_device_assignments mh environment_id start end_ device_types
             prefix chunk_size client creds)
  = Raise no_get.
Proof.
  intros Hin Hnone.
  rewrite fetch_device_assignments_outcome, assignments_returned.
  cbv beta iota delta [Ok]. unfold assignments_table.
  rewrite (collect_assignments_missing_device device_types _
             (ex_intro _ a (conj Hin Hnone))).
  reflexivity.
Qed.

(** X3: when device types are requested, the table has a row for each
    kept assignment, six cells wide, and the second cell of every row,
    under the device_type column, is one of the requested types. *)
Theorem fetch_device_assignments_requested_types (dts : list string)
  (df : DataFrame) (r : cell * list cell) :
  device_types = Some dts ->
  outcome (fetch_device_assignments mh environment_id start end_ device_types
             prefix chunk_size client creds) = Ok df ->
  In r (rows df) ->
  nth 1 (columns df) "" = prefixed prefix "device_type"
  /\ List.length (snd r) = List.length (columns df)
  /\ exists dt, In dt dts /\ nth 1 (snd r) NaN = Str dt.
Proof.
  intros Hdts Hdf Hr.
  rewrite (fetch_device_assignments_Ok mh _ _ _ _ _ _ _ _ _ _
             assignments_returned Hdf) in *.
  cbn [assignments_frame rows columns] in *.
  split; [reflexivity|]. split; [destruct r; revert Hr|].
  - intros Hr. apply in_map_iff in Hr. destruct Hr as [a [Ha _]].
    now inversion Ha.
  - apply in_map_iff in Hr. destruct Hr as [a [<- Ha]].
    apply filter_In in Ha. destruct Ha as [_ Hreq].
    rewrite Hdts in Hreq. cbn [has_requested_type] in Hreq.
    cbn [assignment_row snd device_cells nth].
    unfold in_device_types in Hreq.
    destruct (Device.device_type (device_of a)) as [dt|]; [|discriminate].
    exists dt. split; [|reflexivity].
    apply existsb_exists in Hreq. destruct Hreq as [x [Hx Heq]].
    apply String.eqb_eq in Heq. now subst.
Qed.

End device_assignment_errors.

Lemma fetch_device_assignments_nothing_kept_witness :
  outcome (fetch_device_assignments (Demo.mh Demo.service) "env-1" None None
             (Some ["CAMERA"]) (Some "anchor") 100 (Some Demo.service)
             Demo.no_credentials)
  = Raise (KeyError "None of ['assignment_id'] are in the columns").
Proof.
  refine (fetch_device_assignments_nothing_kept (Demo.mh Demo.service) "env-1"
            None None (Some ["CAMERA"]) (Some "anchor") 100 (Some Demo.service)
            Demo.no_credentials Demo.assignments _ _ _).
  - run.
  - intros a Ha. vm_compute in Ha.
    repeat (destruct Ha as [<-|Ha]; [discriminate|]). contradiction.
  - run.
Defined.

Lemma fetch_device_assignments_missing_device_witness :
  outcome (fetch_device_assignments
             (Demo.mh (Demo.client [] [Assignment.Build (Some "asg") None None None] []))
             "env-1" None None None None 100
             (Some (Demo.client [] [Assignment.Build (Some "asg") None None None] []))
             Demo.no_credentials)
  = Raise no_get.
Proof.
  refine (fetch_device_assignments_missing_device
            (Demo.mh (Demo.client [] [Assignment.Build (Some "asg") None None None] []))
            "env-1" None None None None 100
            (Some (Demo.client [] [Assignment.Build (Some "asg") None None None] []))
            Demo.no_credentials [Assignment.Build (Some "asg") None None None]
            _ (Assignment.Build (Some "asg") None None None) _ _).
  - run.
  - now left.
  - reflexivity.
Defined.

Lemma fetch_device_assignments_requested_types_witness :
  exists dt,
    In dt ["PIZERO"; "PI3"; "PI3WITHCAMERA"]
    /\ nth 1 (snd (assignment_row Demo.anchor_assignment_1)) NaN = Str dt.
Proof.
  refine (proj2 (proj2
            (fetch_device_assignments_requested_types (Demo.mh Demo.service)
               "env-1" None None default_anchor_device_types (Some "anchor") 100
               (Some Demo.service) Demo.no_credentials Demo.assignments _
               ["PIZERO"; "PI3"; "PI3WITHCAMERA"]
               (assignments_frame (Some "anchor")
                  [Demo.anchor_assignment_1; Demo.anchor_assignment_2])
               (assignment_row Demo.anchor_assignment_1) _ _ _))).
  - run.
  - reflexivity.
  - run.
  - now left.
Defined.

(** ** More on lists *)

Lemma for_each_combine {A B : Type} (f : A -> result B) (l : list A) (ys : list B)
  (x : A) (y : B) :
  for_each f l = Ok ys -> In (x, y) (combine l ys) -> f x = Ok y.
Proof.
  revert ys. induction l as [|a l IH]; intros ys; simpl.
  - intros _ [].
  - destruct (f a) as [e|b] eqn:Ha; [discriminate|].
    destruct (for_each f l) as [e|ys'] eqn:Hl; [discriminate|].
    intros H. inversion H. subst ys. simpl.
    intros [Heq|Hin].
    + inversion Heq. now subst.
    + now apply (IH ys').
Qed.

Lemma for_each_first_error {A B : Type} (f : A -> result B)
  (before after : list A) (x : A) (e : exn) :
  (forall a, In a before -> exists b, f a = Ok b) ->
  f x = Raise e ->
  for_each f (before ++ x :: after) = Raise e.
Proof.
  intros Hbefore Hx. induction before as [|a before IH]; simpl.
  - now rewrite Hx.
  - destruct (Hbefore a (or_introl eq_refl)) as [b Hb]. rewrite Hb.
    rewrite IH; [reflexivity|].
    intros a' Ha'. apply Hbefore. now right.
Qed.

Lemma in_combine_exists {A B : Type} (l : list A) (ys : list B) (x : A) :
  List.length ys = List.length l -> In x l -> exists y, In (x, y) (combine l ys).
Proof.
  revert ys. induction l as [|a l IH]; intros [|y ys] Hlen Hin;
    try discriminate; try contradiction.
  injection Hlen as Hlen. destruct Hin as [<-|Hin].
  - exists y. now left.
  - destruct (IH ys Hlen Hin) as [y' Hy']. exists y'. now right.
Qed.

Lemma or_none_length {A : Type} (found : list A) :
  List.length (or_none found) = Nat.max 1 (List.length found).
Proof.
  destruct found as [|a found]; [reflexivity|].
  unfold or_none. rewrite length_map. cbn [List.length]. lia.
Qed.

Lemma or_none_In {A : Type} (found : list A) (a : A) :
  In a found -> In (Some a) (or_none found).
Proof.
  destruct found as [|b found]; [contradiction|].
  intros H. unfold or_none. now apply in_map.
Qed.

Lemma or_none_Some {A : Type} (found : list A) (a : A) :
  In (Some a) (or_none found) -> In a found.
Proof.
  destruct found as [|b found]; unfold or_none.
  - intros [H|[]]. discriminate.
  - intros H. apply in_map_iff in H. destruct H as [x [Hx Hin]].
    inversion Hx. now subst.
Qed.

Lemma or_none_None {A : Type} (found : list A) :
  In None (or_none found) -> found = [].
Proof.
  destruct found as [|b found]; [reflexivity|]. unfold or_none.
  intros H. apply in_map_iff in H. destruct H as [x [Hx _]]. discriminate.
Qed.

Lemma flat_map_length_const {A B : Type} (f : A -> list B) (n : nat) (l : list A) :
  (forall x, List.length (f x) = n) ->
  List.length (flat_map f l) = (List.length l * n)%nat.
Proof.
  intros H. induction l as [|x l IH]; simpl; [reflexivity|].
  now rewrite length_app, H, IH.
Qed.

Lemma cell_eqb_cell_of_eq (x : option string) (c : cell) :
  cell_eqb (cell_of x) c = true <-> cell_of x = c.
Proof.
  destruct x as [s|], c as [|t|z|f|u]; cbn; split; intros H;
    try discriminate; try reflexivity.
  - apply String.eqb_eq in H. now subst.
  - inversion H. apply String.eqb_refl.
Qed.

(** [unique] on assignment ids: no entry twice, the same entries. *)
Lemma unique_from_ids (ids : list (option string)) (seen : list cell) :
  NoDup (unique_from seen (map cell_of ids))
  /\ forall c, In c (unique_from seen (map cell_of ids))
               <-> In c (map cell_of ids) /\ ~ In c seen.
Proof.
  revert seen. induction ids as [|k ids IH]; intros seen; cbn [map unique_from].
  - split; [constructor|]. intros c. simpl. tauto.
  - assert (Hseen : existsb (cell_eqb (cell_of k)) seen = true <-> In (cell_of k) seen).
    { rewrite existsb_exists. split.
      - intros [c [Hin Heq]]. apply cell_eqb_cell_of_eq in Heq. now subst.
      - intros Hin. exists (cell_of k). split; [exact Hin|].
        now apply cell_eqb_cell_of_eq. }
    destruct (existsb (cell_eqb (cell_of k)) seen) eqn:Hk.
    + destruct (IH seen) as [Hnd Hin]. split; [exact Hnd|].
      intros c. rewrite Hin. simpl. split; [tauto|].
      intros [[<-|Hc] Hno]; [|tauto].
      exfalso. apply Hno. now apply Hseen.
    + destruct (IH (cell_of k :: seen)) as [Hnd Hin]. split.
      * constructor; [|exact Hnd]. rewrite Hin. simpl. tauto.
      * intros c. simpl. rewrite Hin. simpl.
        assert (Hnot : ~ In (cell_of k) seen).
        { intros H. apply Hseen in H. discriminate. }
        split.
        -- intros [<-|[Hc Hno]]; [tauto|]. tauto.
        -- intros [[<-|Hc] Hno]; [now left|].
           destruct (cell_eqb (cell_of k) c) eqn:Heq.
           ++ apply cell_eqb_cell_of_eq in Heq. now left.
           ++ right. split; [exact Hc|]. intros [Heq'|Hs]; [|tauto].
              apply cell_eqb_cell_of_eq in Heq'. congruence.
Qed.

(** ** More on the table of datapoints *)

Lemma datapoint_dict_parsed (json_loads : string -> result Payload.t)
  (datum : Datapoint.t) (d : dict) :
  datapoint_dict json_loads datum = Ok d ->
  exists file s p src x,
    Datapoint.file datum = Some file
    /\ File.data file = Some s
    /\ json_loads s = Ok p
    /\ Datapoint.source datum = Some src
    /\ Payload.rssi p = Some x
    /\ parsed_rssi json_loads datum = x
    /\ parsed_anchor_id json_loads datum = Payload.anchor_id p
    /\ tag_assignment_id_of datum = Source.assignment_id src.
Proof.
  unfold datapoint_dict, parsed_anchor_id, parsed_rssi, payload_of,
    tag_assignment_id_of.
  destruct datum as [id ts [src|] [[[s|]]|]]; cbn; try discriminate.
  - destruct (json_loads s) as [e|p] eqn:Hp; cbn; [discriminate|].
    destruct (Payload.rssi p) as [x|] eqn:Hx; cbn; [|discriminate].
    intros _. exists (File.Build (Some s)), s, p, src, x.
    rewrite Hx. repeat split; try reflexivity; assumption.
  - destruct (json_loads s) as [e|p]; cbn; discriminate.
Qed.

Lemma datapoints_table_parses (json_loads : string -> result Payload.t)
  (to_datetime : cell -> result cell) (result_ : list Datapoint.t)
  (tags_df anchors_df : DataFrame) (f1 f2 f3 : bool) (df : DataFrame) :
  datapoints_table json_loads to_datetime result_ tags_df anchors_df f1 f2 f3
  = Ok df ->
  exists data, for_each (datapoint_dict json_loads) result_ = Ok data.
Proof.
  unfold datapoints_table.
  destruct (for_each (datapoint_dict json_loads) result_) as [e|data];
    [discriminate|].
  intros _. now exists data.
Qed.

Lemma datapoint_rows_length (json_loads : string -> result Payload.t)
  (f1 f2 f3 : bool) (tags anchors : list Assignment.t) (datum : Datapoint.t)
  (t : cell) :
  List.length (datapoint_rows json_loads f1 f2 f3 tags anchors datum t)
  = (Nat.max 1 (List.length (tag_matches tags (cell_of (tag_assignment_id_of datum))))
     * Nat.max 1 (List.length
                    (anchor_matches anchors
                       (cell_of (parsed_anchor_id json_loads datum)))))%nat.
Proof.
  unfold datapoint_rows.
  rewrite (flat_map_length_const _
             (List.length (or_none (anchor_matches anchors
                (cell_of (parsed_anchor_id json_loads datum)))))).
  - now rewrite !or_none_length.
  - intros tag. now rewrite length_map.
Qed.

Lemma table_rows_length (json_loads : string -> result Payload.t)
  (f1 f2 f3 : bool) (tags anchors : list Assignment.t)
  (result_ : list Datapoint.t) (timestamps : list cell) :
  List.length timestamps = List.length result_ ->
  List.length (table_rows json_loads f1 f2 f3 tags anchors result_ timestamps)
  = list_sum
      (map (fun datum =>
              (Nat.max 1 (List.length
                            (tag_matches tags (cell_of (tag_assignment_id_of datum))))
               * Nat.max 1 (List.length
                              (anchor_matches anchors
                                 (cell_of (parsed_anchor_id json_loads datum)))))%nat)
           result_).
Proof.
  unfold table_rows. revert timestamps.
  induction result_ as [|d l IH]; intros [|t ts] Hlen; try discriminate;
    [reflexivity|].
  injection Hlen as Hlen. cbn [combine flat_map map list_sum fst snd].
  now rewrite length_app, datapoint_rows_length, (IH ts Hlen).
Qed.

Lemma table_row_width (json_loads : string -> result Payload.t) (f1 f2 f3 : bool)
  (datum : Datapoint.t) (t : cell) (tag anchor : option Assignment.t) :
  List.length (snd (table_row json_loads f1 f2 f3 datum t tag anchor))
  = List.length (return_columns f1 f2 f3).
Proof. now destruct f1, f2, f3. Qed.

Lemma datapoint_rows_In_both (json_loads : string -> result Payload.t)
  (f1 f2 f3 : bool) (tags anchors : list Assignment.t) (datum : Datapoint.t)
  (t : cell) (r : cell * list cell) :
  In r (datapoint_rows json_loads f1 f2 f3 tags anchors datum t) <->
  exists tag anchor,
    r = table_row json_loads f1 f2 f3 datum t tag anchor
    /\ In tag (or_none (tag_matches tags (cell_of (tag_assignment_id_of datum))))
    /\ In anchor (or_none (anchor_matches anchors
                             (cell_of (parsed_anchor_id json_loads datum)))).
Proof.
  unfold datapoint_rows. rewrite in_flat_map. split.
  - intros [tag [Htag H]]. apply in_map_iff in H.
    destruct H as [anchor [Hr Hanchor]]. exists tag, anchor. now repeat split.
  - intros [tag [anchor [-> [Htag Hanchor]]]]. exists tag. split; [exact Htag|].
    now apply in_map.
Qed.

Section ble_datapoints_more.

Variable mh : minimal_honeycomb.
Variable json_loads : string -> result Payload.t.
Variable to_datetime : cell -> result cell.

Variables start end_ : option Z.
Variables environment_id environment_name : option string.
Variables return_tag_name return_tag_tag_id return_anchor_name : bool.
Variables tag_device_types anchor_device_types : option (list string).
Variable chunk_size : Z.
Variable client : option Client.
Variable creds : credentials.

Variable env : string.
Variables tag_assignments_df anchor_assignments_df : DataFrame.

Hypothesis environment_resolved :
  outcome (fetch_environment_id mh environment_id environment_name client creds)
  = Ok (Some env).

Hypothesis tags_returned :
  outcome (fetch_device_assignments mh env start end_ tag_device_types
             (Some "tag") chunk_size client creds) = Ok tag_assignments_df.

Hypothesis anchors_returned :
  outcome (fetch_device_assignments mh env start end_ anchor_device_types
             (Some "anchor") chunk_size client creds) = Ok anchor_assignments_df.

Lemma fetch_ble_datapoints_after_tables :
  outcome (fetch_ble_datapoints mh json_loads to_datetime start end_
             environment_id environment_name
             return_tag_name return_tag_tag_id return_anchor_name
             tag_device_types anchor_device_types chunk_size client creds)
  = match outcome (search_ble_datapoints mh
                     (datapoint_query_list mh
                        (unique (index tag_assignments_df)) start end_)
                     datapoint_return_data chunk_size client creds) with
    | inl e => inl e
    | inr result_ =>
        datapoints_table json_loads to_datetime result_
          tag_assignments_df anchor_assignments_df
          return_tag_name return_tag_tag_id return_anchor_name
    end.
Proof.
  rewrite fetch_ble_datapoints_outcome, environment_resolved.
  cbv beta iota delta [Ok].
  now rewrite tags_returned, anchors_returned.
Qed.

(** X4: a search that returns no datapoint gives no table:
    [fetch_ble_datapoints] raises KeyError on the timestamp column of the
    frame without columns. *)
Theorem fetch_ble_datapoints_no_datapoints :
  outcome (search_ble_datapoints mh
             (datapoint_query_list mh (unique (index tag_assignments_df)) start end_)
             datapoint_return_data chunk_size client creds) = Ok [] ->
  outcome (fetch_ble_datapoints mh json_loads to_datetime start end_
             environment_id environment_name
             return_tag_name return_tag_tag_id return_anchor_name
             tag_device_types anchor_device_types chunk_size client creds)
  = Raise (KeyError "timestamp").
Proof.
  intros Hsearch. rewrite fetch_ble_datapoints_after_tables, Hsearch. reflexivity.
Qed.

(** X5: the first datapoint that does not parse decides the outcome: when
    the datapoints before it parse, [fetch_ble_datapoints] raises what
    parsing it raises, and returns no row for the others. *)
Theorem fetch_ble_datapoints_first_parse_error
  (before after : list Datapoint.t) (datum : Datapoint.t) (e : exn) :
  outcome (search_ble_datapoints mh
             (datapoint_query_list mh (unique (index tag_assignments_df)) start end_)
             datapoint_return_data chunk_size client creds)
  = Ok (before ++ datum :: after) ->
  (forall d, In d before -> exists row, datapoint_dict json_loads d = Ok row) ->
  datapoint_dict json_loads datum = Raise e ->
  outcome (fetch_ble_datapoints mh json_loads to_datetime start end_
             environment_id environment_name
             return_tag_name return_tag_tag_id return_anchor_name
             tag_device_types anchor_device_types chunk_size client creds)
  = Raise e.
Proof.
  intros Hsearch Hbefore Hdatum.
  rewrite fetch_ble_datapoints_after_tables, Hsearch.
  cbv beta iota delta [Ok]. unfold datapoints_table.
  now rewrite (for_each_first_error _ before after datum e Hbefore Hdatum).
Qed.

Lemma datapoint_dict_without_rssi (datum : Datapoint.t) (file : File.t)
  (s : string) (p : Payload.t) :
  Datapoint.file datum = Some file ->
  File.data file = Some s ->
  json_loads s = Ok p ->
  Datapoint.source datum <> None ->
  Payload.rssi p = None ->
  datapoint_dict json_loads datum
  = Raise (TypeError
      "float() argument must be a string or a number, not 'NoneType'").
Proof.
  intros Hfile Hdata Hp Hsrc Hrssi. unfold datapoint_dict.
  rewrite Hfile. cbn [get rbind Ok]. rewrite Hdata, Hp. cbn [rbind Ok].
  destruct (Datapoint.source datum) as [src|]; [|contradiction].
  cbn [get rbind Ok]. now rewrite Hrssi.
Qed.

(** X6: a datapoint whose payload parses and has no rssi entry makes
    [fetch_ble_datapoints] raise the TypeError of [float(None)], when the
    datapoints before it parse. *)
Theorem fetch_ble_datapoints_without_rssi
  (before after : list Datapoint.t) (datum : Datapoint.t) (file : File.t)
  (s : string) (p : Payload.t) :
  outcome (search_ble_datapoints mh
             (datapoint_query_list mh (unique (index tag_assignments_df)) start end_)
             datapoint_return_data chunk_size client creds)
  = Ok (before ++ datum :: after) ->
  (forall d, In d before -> exists row, datapoint_dict json_loads d = Ok row) ->
  Datapoint.file datum = Some file ->
  File.data file = Some s ->
  json_loads s = Ok p ->
  Datapoint.source datum <> None ->
  Payload.rssi p = None ->
  outcome (fetch_ble_datapoints mh json_loads to_datetime start end_
             environment_id environment_name
             return_tag_name return_tag_tag_id return_anchor_name
             tag_device_types anchor_device_types chunk_size client creds)
  = Raise (TypeError
      "float() argument must be a string or a number, not 'NoneType'").
Proof.
  intros Hsearch Hbefore Hfile Hdata Hp Hsrc Hrssi.
  rewrite fetch_ble_datapoints_after_tables, Hsearch.
  cbv beta iota delta [Ok]. unfold datapoints_table.
  now rewrite (for_each_first_error _ before after datum _ Hbefore
                 (datapoint_dict_without_rssi datum file s p
                    Hfile Hdata Hp Hsrc Hrssi)).
Qed.

(** X7: with the environment resolved and both assignment tables there,
    [fetch_ble_datapoints] sends, after the queries of the resolution, the
    same assignment query twice and then one datapoint query, whose source
    values are the index of the tag table. *)
Theorem fetch_ble_datapoints_queries :
  queries (fetch_ble_datapoints mh json_loads to_datetime start end_
             environment_id environment_name
             return_tag_name return_tag_tag_id return_anchor_name
             tag_device_types anchor_device_types chunk_size client creds)
  = queries (fetch_environment_id mh environment_id environment_name client creds)
    ++ [assignment_request env chunk_size;
        assignment_request env chunk_size;
        datapoint_request
          (datapoint_query_list mh (unique (index tag_assignments_df)) start end_)
          chunk_size].
Proof.
  unfold fetch_ble_datapoints.
  rewrite queries_bind, environment_resolved. cbv beta iota delta [Ok].
  f_equal.
  rewrite queries_bind, tags_returned. cbv beta iota delta [Ok].
  assert (Hq : forall types prefix,
            queries (fetch_device_assignments mh env start end_ types prefix
                       chunk_size client creds)
            = [assignment_request env chunk_size]).
  { intros types prefix. unfold fetch_device_assignments.
    rewrite queries_bind.
    now destruct (outcome (search_assignments mh _ _ chunk_size client _)). }
  rewrite Hq. cbn [app]. f_equal.
  rewrite queries_bind, anchors_returned. cbv beta iota delta [Ok].
  rewrite Hq. cbn [app]. f_equal.
  rewrite queries_bind.
  now destruct (outcome (search_ble_datapoints mh _ _ chunk_size client creds)).
Qed.

(** X8: the datapoint query asks for the sources in the assignment ids of
    the tag table, each of them once. *)
Theorem datapoint_query_sources (assignments : list Assignment.t) :
  outcome (search_assignments mh (assignment_query_list env)
             assignment_return_data chunk_size client
             (without_client_secret creds)) = Ok assignments ->
  In (Query.Build "source" "IN" (values (unique (index tag_assignments_df))))
     (datapoint_query_list mh (unique (index tag_assignments_df)) start end_)
  /\ NoDup (unique (index tag_assignments_df))
  /\ forall id,
       In (cell_of id) (unique (index tag_assignments_df))
       <-> In id (map Assignment.assignment_id
                    (kept_assignments mh assignments start end_ tag_device_types)).
Proof.
  intros Hsearch.
  rewrite (fetch_device_assignments_Ok mh _ _ _ _ _ _ _ _ _ _ Hsearch tags_returned).
  fold (kept_assignments mh assignments start end_ tag_device_types).
  split; [now left|].
  unfold index, unique. cbn [assignments_frame rows].
  rewrite map_map. cbn [assignment_row fst].
  rewrite <- (map_map Assignment.assignment_id cell_of).
  destruct (unique_from_ids
              (map Assignment.assignment_id
                 (kept_assignments mh assignments start end_ tag_device_types)) [])
    as [Hnd Hin].
  split; [exact Hnd|].
  intros id. rewrite Hin. split.
  - intros [H _]. apply in_map_iff in H. destruct H as [k [Hk Hink]].
    assert (k = id) by (destruct k, id; inversion Hk; reflexivity).
    now subst.
  - intros H. split; [now apply in_map|intros []].
Qed.

End ble_datapoints_more.

Section ble_datapoints_rows.

Variable mh : minimal_honeycomb.
Variable json_loads : string -> result Payload.t.
Variable to_datetime : cell -> result cell.

Variables start end_ : option Z.
Variables environment_id environment_name : option string.
Variables return_tag_name return_tag_tag_id return_anchor_name : bool.
Variables tag_device_types anchor_device_types : option (list string).
Variable chunk_size : Z.
Variable client : option Client.
Variable creds : credentials.

Variable env : string.
Variable assignments : list Assignment.t.
Variable result_ : list Datapoint.t.

Hypothesis environment_resolved :
  outcome (fetch_environment_id mh environment_id environment_name client creds)
  = Ok (Some env).

Hypothesis assignments_returned :
  outcome (search_assignments mh (assignment_query_list env)
             assignment_return_data chunk_size client
             (without_client_secret creds)) = Ok assignments.

Let tags : list Assignment.t :=
  kept_assignments mh assignments start end_ tag_device_types.

Let anchors : list Assignment.t :=
  kept_assignments mh assignments start end_ anchor_device_types.

Hypothesis datapoints_returned :
  outcome (search_ble_datapoints mh
             (datapoint_query_list mh
                (unique (index (assignments_frame (Some "tag") tags))) start end_)
             datapoint_return_data chunk_size client creds) = Ok result_.

Variable df : DataFrame.

Hypothesis table_returned :
  outcome (fetch_ble_datapoints mh json_loads to_datetime start end_
             environment_id environment_name
             return_tag_name return_tag_tag_id return_anchor_name
             tag_device_types anchor_device_types chunk_size client creds) = Ok df.

(** The table, with what parsing and the conversion of the timestamps
    gave. *)
Lemma fetch_ble_datapoints_table :
  exists timestamps,
    for_each to_datetime (map (fun d => cell_of (Datapoint.timestamp d)) result_)
    = Ok timestamps
    /\ (forall datum, In datum result_ ->
          exists row, datapoint_dict json_loads datum = Ok row)
    /\ df = {| index_name := Some "data_id";
               columns := return_columns return_tag_name return_tag_tag_id
                            return_anchor_name;
               rows := table_rows json_loads return_tag_name return_tag_tag_id
                         return_anchor_name tags anchors result_ timestamps |}.
Proof.
  pose proof table_returned as H.
  rewrite fetch_ble_datapoints_outcome, environment_resolved in H.
  cbv beta iota delta [Ok] in H.
  destruct (outcome (fetch_device_assignments mh env start end_ tag_device_types
                       (Some "tag") chunk_size client creds))
    as [e|tags_df] eqn:Htags; [discriminate H|].
  apply (fetch_device_assignments_Ok mh _ _ _ _ _ _ _ _ _ _ assignments_returned)
    in Htags.
  destruct (outcome (fetch_device_assignments mh env start end_ anchor_device_types
                       (Some "anchor") chunk_size client creds))
    as [e|anchors_df] eqn:Hanchors; [discriminate H|].
  apply (fetch_device_assignments_Ok mh _ _ _ _ _ _ _ _ _ _ assignments_returned)
    in Hanchors.
  subst tags_df anchors_df.
  pose proof datapoints_returned as Hsearch.
  unfold tags, kept_assignments in Hsearch.
  rewrite Hsearch in H. cbv beta iota delta [Ok] in H.
  destruct (datapoints_table_parses _ _ _ _ _ _ _ _ _ H) as [data Hdata].
  apply datapoints_table_Ok in H. destruct H as [timestamps [Hts Hdf]].
  exists timestamps. split; [exact Hts|]. split; [|exact Hdf].
  intros datum Hin.
  destruct (in_combine_exists result_ data datum) as [row Hrow];
    [now apply for_each_length in Hdata|exact Hin|].
  exists row. exact (for_each_combine _ _ _ _ _ Hdata Hrow).
Qed.

(** X10: every row carries what its datapoint says: the converted
    timestamp, the assignment id of the source, and the rssi of the
    payload as a float; its tag_device_id is that of a tag assignment
    with this assignment id, and is missing when there is none. *)
Theorem fetch_ble_datapoints_row_values (r : cell * list cell) :
  In r (rows df) ->
  exists datum file s p src x,
    In datum result_
    /\ fst r = cell_of (Datapoint.data_id datum)
    /\ to_datetime (cell_of (Datapoint.timestamp datum))
       = Ok (cell_at (columns df) "timestamp" (snd r))
    /\ Datapoint.source datum = Some src
    /\ cell_at (columns df) "tag_assignment_id" (snd r)
       = cell_of (Source.assignment_id src)
    /\ Datapoint.file datum = Some file
    /\ File.data file = Some s
    /\ json_loads s = Ok p
    /\ Payload.rssi p = Some x
    /\ cell_at (columns df) "rssi" (snd r) = Float x
    /\ ((exists a,
           In a tags
           /\ Assignment.assignment_id a = Source.assignment_id src
           /\ cell_at (columns df) "tag_device_id" (snd r)
              = cell_of (Device.device_id (device_of a)))
        \/ ((forall a, In a tags ->
               Assignment.assignment_id a <> Source.assignment_id src)
            /\ cell_at (columns df) "tag_device_id" (snd r) = NaN)).
Proof.
  destruct fetch_ble_datapoints_table as [timestamps [Hts [Hparse ->]]].
  cbn [columns rows]. intros Hr.
  unfold table_rows in Hr. apply in_flat_map in Hr.
  destruct Hr as [[datum t] [Hdatum Hr]]. cbn [fst snd] in Hr.
  apply datapoint_rows_In_both in Hr.
  destruct Hr as [tag [anchor [-> [Htag _]]]].
  assert (Ht : to_datetime (cell_of (Datapoint.timestamp datum)) = Ok t).
  { apply (for_each_combine _ _ _ _ _ Hts).
    rewrite combine_map_l.
    apply (in_map (fun xv => (cell_of (Datapoint.timestamp (fst xv)), snd xv))
                  _ _ Hdatum). }
  apply in_combine_l in Hdatum.
  destruct (Hparse datum Hdatum) as [row Hrow].
  apply datapoint_dict_parsed in Hrow.
  destruct Hrow as [file [s [p [src [x [Hfile [Hdata [Hp [Hsrc [Hx [Hrssi [_ Hid]]]]]]]]]]]].
  exists datum, file, s, p, src, x.
  split; [exact Hdatum|]. split; [reflexivity|].
  split; [now destruct return_tag_name, return_tag_tag_id, return_anchor_name|].
  split; [exact Hsrc|].
  split; [rewrite <- Hid;
          now destruct return_tag_name, return_tag_tag_id, return_anchor_name|].
  split; [exact Hfile|]. split; [exact Hdata|]. split; [exact Hp|].
  split; [exact Hx|].
  split; [rewrite <- Hrssi;
          now destruct return_tag_name, return_tag_tag_id, return_anchor_name|].
  rewrite <- Hid.
  destruct tag as [a|].
  - left. apply or_none_Some in Htag. unfold tag_matches in Htag.
    apply filter_In in Htag. destruct Htag as [Ha Heq].
    apply cell_eqb_cell_of in Heq.
    exists a. split; [exact Ha|]. split; [exact Heq|].
    now destruct return_tag_name, return_tag_tag_id, return_anchor_name.
  - right. apply or_none_None in Htag. split.
    + intros a Ha Heq.
      assert (Hin : In a (tag_matches tags (cell_of (tag_assignment_id_of datum)))).
      { unfold tag_matches. apply filter_In. split; [exact Ha|].
        now apply cell_eqb_cell_of. }
      now rewrite Htag in Hin.
    + now destruct return_tag_name, return_tag_tag_id, return_anchor_name.
Qed.

(** X11: the number of rows: each datapoint counts for the number of tag
    assignments with its source id, times the number of entries equal to
    its anchor id among the assignment ids and the device ids of the
    anchor assignments, a number of zero counting for one. *)
Theorem fetch_ble_datapoints_row_number :
  List.length (rows df)
  = list_sum
      (map (fun datum =>
              (Nat.max 1 (List.length
                            (tag_matches tags (cell_of (tag_assignment_id_of datum))))
               * Nat.max 1 (List.length
                              (anchor_matches anchors
                                 (cell_of (parsed_anchor_id json_loads datum)))))%nat)
           result_).
Proof.
  destruct fetch_ble_datapoints_table as [timestamps [Hts [_ ->]]].
  cbn [rows]. apply table_rows_length.
  apply for_each_length in Hts. now rewrite length_map in Hts.
Qed.

(** X12: no link is lost: for a datapoint and an anchor assignment whose
    assignment id or device id is the anchor id of the datapoint, the
    table has a row of this datapoint with the columns of this anchor
    assignment. *)
Theorem fetch_ble_datapoints_every_anchor_link (datum : Datapoint.t)
  (a : Assignment.t) :
  In datum result_ ->
  In a anchors ->
  Assignment.assignment_id a = parsed_anchor_id json_loads datum
  \/ Device.device_id (device_of a) = parsed_anchor_id json_loads datum ->
  exists r,
    In r (rows df)
    /\ fst r = cell_of (Datapoint.data_id datum)
    /\ cell_at (columns df) "anchor_assignment_id" (snd r)
       = cell_of (Assignment.assignment_id a)
    /\ cell_at (columns df) "anchor_device_id" (snd r)
       = cell_of (Device.device_id (device_of a)).
Proof.
  destruct fetch_ble_datapoints_table as [timestamps [Hts [_ ->]]].
  cbn [rows columns]. intros Hdatum Ha Hlink.
  apply for_each_length in Hts. rewrite length_map in Hts.
  destruct (in_combine_exists result_ timestamps datum Hts Hdatum) as [t Ht].
  destruct (or_none_cases (tag_matches tags (cell_of (tag_assignment_id_of datum))))
    as [tag [rest [Htag _]]].
  assert (Hin : In tag (or_none (tag_matches tags
                                   (cell_of (tag_assignment_id_of datum)))))
    by (rewrite Htag; now left).
  exists (table_row json_loads return_tag_name return_tag_tag_id
            return_anchor_name datum t tag (Some a)).
  split.
  - unfold table_rows. apply in_flat_map. exists (datum, t). split; [exact Ht|].
    apply datapoint_rows_In_both. exists tag, (Some a). split; [reflexivity|].
    split; [exact Hin|].
    apply or_none_In. unfold anchor_matches. apply in_or_app.
    destruct Hlink as [Hid|Hdev]; [left|right]; apply filter_In;
      (split; [exact Ha|]); now apply cell_eqb_cell_of.
  - now destruct return_tag_name, return_tag_tag_id, return_anchor_name.
Qed.

End ble_datapoints_rows.

Section ble_datapoints_shape.

Variable mh : minimal_honeycomb.
Variable json_loads : string -> result Payload.t.
Variable to_datetime : cell -> result cell.

Variables start end_ : option Z.
Variables environment_id environment_name : option string.
Variables return_tag_name return_tag_tag_id return_anchor_name : bool.
Variables tag_device_types anchor_device_types : option (list string).
Variable chunk_size : Z.
Variable client : option Client.
Variable creds : credentials.

Variable env : string.
Variable assignments : list Assignment.t.
Variable result_ : list Datapoint.t.

Hypothesis environment_resolved :
  outcome (fetch_environment_id mh environment_id environment_name client creds)
  = Ok (Some env).

Hypothesis assignments_returned :
  outcome (search_assignments mh (assignment_query_list env)
             assignment_return_data chunk_size client
             (without_client_secret creds)) = Ok assignments.

Hypothesis datapoints_returned :
  outcome (search_ble_datapoints mh
             (datapoint_query_list mh
                (unique (index (assignments_frame (Some "tag")
                                  (kept_assignments mh assignments start end_
                                     tag_device_types)))) start end_)
             datapoint_return_data chunk_size client creds) = Ok result_.

(** X9: the table is indexed by data id, its columns are timestamp,
    tag_assignment_id, tag_device_id, then tag_name and tag_tag_id when
    asked for, anchor_assignment_id, anchor_device_id, then anchor_name
    when asked for, and rssi; every row has one cell per column. *)
Theorem fetch_ble_datapoints_shape (df : DataFrame) :
  outcome (fetch_ble_datapoints mh json_loads to_datetime start end_
             environment_id environment_name
             return_tag_name return_tag_tag_id return_anchor_name
             tag_device_types anchor_device_types chunk_size client creds) = Ok df ->
  index_name df = Some "data_id"
  /\ columns df
     = ["timestamp"; "tag_assignment_id"; "tag_device_id"]
       ++ (if return_tag_name then ["tag_name"] else [])
       ++ (if return_tag_tag_id then ["tag_tag_id"] else [])
       ++ ["anchor_assignment_id"; "anchor_device_id"]
       ++ (if return_anchor_name then ["anchor_name"] else [])
       ++ ["rssi"]
  /\ forall r, In r (rows df) -> List.length (snd r) = List.length (columns df).
Proof.
  intros Hdf.
  destruct (fetch_ble_datapoints_table mh json_loads to_datetime start end_
              environment_id environment_name
              return_tag_name return_tag_tag_id return_anchor_name
              tag_device_types anchor_device_types chunk_size client creds
              env assignments result_ environment_resolved assignments_returned
              datapoints_returned df Hdf)
    as [timestamps [_ [_ ->]]].
  cbn [index_name columns rows]. split; [reflexivity|]. split; [reflexivity|].
  intros r Hr. unfold table_rows in Hr. apply in_flat_map in Hr.
  destruct Hr as [[datum t] [_ Hr]]. apply datapoint_rows_In in Hr.
  destruct Hr as [tag [anchor [-> _]]]. apply table_row_width.
Qed.

End ble_datapoints_shape.

(** ** More on the queries and the client *)

(** X13: with a start, the datapoint query bounds the timestamp from
    below with the operator GTE and the start itself: a datapoint whose
    timestamp is the start passes the timestamp entries of the query, an
    earlier one does not. *)
Theorem datapoint_query_closed_at_start (mh : minimal_honeycomb)
  (ids : list cell) (s : Z) (end_ : option Z) (decode : string -> option Z) :
  decode (to_honeycomb_datetime mh s) = Some s ->
  (forall e, end_ = Some e ->
             decode (to_honeycomb_datetime mh e) = Some e /\ (s <= e)%Z) ->
  In (Query.Build "timestamp" "GTE" (value (to_honeycomb_datetime mh s)))
     (datapoint_query_list mh ids (Some s) end_)
  /\ forallb (timestamp_passes decode s) (datapoint_query_list mh ids (Some s) end_)
     = true
  /\ (forall t, (t < s)%Z ->
        forallb (timestamp_passes decode t) (datapoint_query_list mh ids (Some s) end_)
        = false).
Proof.
  intros Hstart Hend. unfold datapoint_query_list. repeat split.
  - right. now left.
  - cbn [app forallb].
    rewrite timestamp_passes_source, (timestamp_passes_GTE decode s s _ Hstart).
    rewrite Z.leb_refl. destruct end_ as [e|]; [|reflexivity].
    destruct (Hend e eq_refl) as [He Hle]. cbn [forallb].
    rewrite (timestamp_passes_LTE decode s e _ He).
    apply Z.leb_le in Hle. now rewrite Hle.
  - intros t Ht. cbn [app forallb].
    rewrite (timestamp_passes_GTE decode t s _ Hstart).
    apply Z.leb_gt in Ht. rewrite Ht. now rewrite andb_false_r.
Qed.

Section client.

Variable mh : minimal_honeycomb.
Variable json_loads : string -> result Payload.t.
Variable to_datetime : cell -> result cell.

Variables start end_ : option Z.
Variables return_tag_name return_tag_tag_id return_anchor_name : bool.
Variables tag_device_types anchor_device_types : option (list string).
Variable chunk_size : Z.
Variable client : option Client.
Variable creds : credentials.

(** X14: an environment found by its name and without an id counts as no
    environment: [fetch_ble_datapoints] raises ValueError after the one
    query of the resolution. *)
Theorem fetch_ble_datapoints_environment_without_id (environment_name : string)
  (found : Environment.t) :
  bulk_query
    match client with
    | None => MinimalHoneycombClient mh creds
    | Some c => c
    end
    findEnvironments (name_argument "String" environment_name)
    [leaf "environment_id"] "environment_id" None = Ok [found] ->
  Environment.environment_id found = None ->
  outcome (fetch_ble_datapoints mh json_loads to_datetime start end_
             None (Some environment_name)
             return_tag_name return_tag_tag_id return_anchor_name
             tag_device_types anchor_device_types chunk_size client creds)
  = Raise (ValueError "Must specify environment")
  /\ queries (fetch_ble_datapoints mh json_loads to_datetime start end_
                None (Some environment_name)
                return_tag_name return_tag_tag_id return_anchor_name
                tag_device_types anchor_device_types chunk_size client creds)
     = [environment_request environment_name].
Proof.
  intros Hquery Hnone.
  assert (Henv : outcome (fetch_environment_id mh None (Some environment_name)
                            client creds) = Ok None).
  { unfold fetch_environment_id, bind, call_bulk_query, outcome. cbn [fst snd].
    rewrite Hquery. cbn. now rewrite Hnone. }
  split.
  - rewrite fetch_ble_datapoints_outcome, Henv. reflexivity.
  - unfold fetch_ble_datapoints. rewrite queries_bind, Henv.
    cbv beta iota delta [Ok].
    unfold fetch_environment_id, bind, call_bulk_query, queries. cbn [fst snd].
    rewrite Hquery. reflexivity.
Qed.

(** X15: what the client raises on the assignment query is raised
    unchanged by [fetch_ble_datapoints], and no further query is sent:
    neither the second assignment query nor the datapoint query. *)
Theorem fetch_ble_datapoints_assignment_search_fails
  (environment_id environment_name : option string) (env : string) (e : exn) :
  outcome (fetch_environment_id mh environment_id environment_name client creds)
  = Ok (Some env) ->
  outcome (search_assignments mh (assignment_query_list env)
             assignment_return_data chunk_size client
             (without_client_secret creds)) = Raise e ->
  outcome (fetch_ble_datapoints mh json_loads to_datetime start end_
             environment_id environment_name
             return_tag_name return_tag_tag_id return_anchor_name
             tag_device_types anchor_device_types chunk_size client creds)
  = Raise e
  /\ queries (fetch_ble_datapoints mh json_loads to_datetime start end_
                environment_id environment_name
                return_tag_name return_tag_tag_id return_anchor_name
                tag_device_types anchor_device_types chunk_size client creds)
     = queries (fetch_environment_id mh environment_id environment_name
                  client creds)
       ++ [assignment_request env chunk_size].
Proof.
  intros Henv Hsearch.
  assert (Htags : outcome (fetch_device_assignments mh env start end_
                             tag_device_types (Some "tag") chunk_size client creds)
                  = Raise e).
  { rewrite fetch_device_assignments_outcome, Hsearch. reflexivity. }
  split.
  - rewrite fetch_ble_datapoints_outcome, Henv. cbv beta iota delta [Ok].
    now rewrite Htags.
  - unfold fetch_ble_datapoints. rewrite queries_bind, Henv.
    cbv beta iota delta [Ok]. f_equal.
    rewrite queries_bind, Htags. cbv beta iota delta [Raise].
    unfold fetch_device_assignments. rewrite queries_bind, Hsearch. reflexivity.
Qed.

(** X16: the client secret plays no part in the searches: with the
    environment given by its id, [fetch_ble_datapoints] does the same with
    and without it, and so does [fetch_device_assignments]. *)
Theorem searches_ignore_client_secret (environment_id : string)
  (device_types : option (list string)) (prefix : option string) :
  fetch_device_assignments mh environment_id start end_ device_types prefix
    chunk_size client creds
  = fetch_device_assignments mh environment_id start end_ device_types prefix
      chunk_size client (without_client_secret creds)
  /\ fetch_ble_datapoints mh json_loads to_datetime start end_
       (Some environment_id) None
       return_tag_name return_tag_tag_id return_anchor_name
       tag_device_types anchor_device_types chunk_size client creds
     = fetch_ble_datapoints mh json_loads to_datetime start end_
         (Some environment_id) None
         return_tag_name return_tag_tag_id return_anchor_name
         tag_device_types anchor_device_types chunk_size client
         (without_client_secret creds).
Proof. split; reflexivity. Qed.

(** X17: a client that is given is the one every query goes to: the
    credentials and the constructor of clients play no part. *)
Theorem given_client_is_used (c : Client)
  (environment_id environment_name : option string)
  (build : credentials -> Client) (creds' : credentials) :
  fetch_ble_datapoints mh json_loads to_datetime start end_
    environment_id environment_name
    return_tag_name return_tag_tag_id return_anchor_name
    tag_device_types anchor_device_types chunk_size (Some c) creds
  = fetch_ble_datapoints
      {| MinimalHoneycombClient := build;
         filter_assignments := filter_assignments mh;
         to_honeycomb_datetime := to_honeycomb_datetime mh |}
      json_loads to_datetime start end_
      environment_id environment_name
      return_tag_name return_tag_tag_id return_anchor_name
      tag_device_types anchor_device_types chunk_size (Some c) creds'.
Proof. destruct environment_id, environment_name; reflexivity. Qed.

End client.

(** ** The small service, run further *)

Lemma fetch_ble_datapoints_no_datapoints_witness :
  outcome (fetch_ble_datapoints (Demo.mh Demo.silent_service) Demo.json_loads
             Demo.to_datetime (Some 0%Z) (Some 40%Z) (Some "env-1") None
             false false false default_tag_device_types
             default_anchor_device_types 100 None Demo.no_credentials)
  = Raise (KeyError "timestamp").
Proof.
  apply fetch_ble_datapoints_no_datapoints
    with (env := "env-1") (tag_assignments_df := Demo.tag_table)
         (anchor_assignments_df := Demo.anchor_table); run.
Defined.

Lemma fetch_ble_datapoints_first_parse_error_witness :
  outcome (fetch_ble_datapoints (Demo.mh Demo.broken_service) Demo.json_loads
             Demo.to_datetime (Some 0%Z) (Some 40%Z) (Some "env-1") None
             false false false default_tag_device_types
             default_anchor_device_types 100 None Demo.no_credentials)
  = Raise (ValueError "Expecting value").
Proof.
  apply fetch_ble_datapoints_first_parse_error
    with (env := "env-1") (tag_assignments_df := Demo.tag_table)
         (anchor_assignments_df := Demo.anchor_table)
         (before := [Demo.datapoint_1]) (after := [Demo.datapoint_2])
         (datum := Demo.broken_datapoint); try run.
  intros d [<-|[]]. eexists. run.
Defined.

Lemma fetch_ble_datapoints_without_rssi_witness :
  outcome (fetch_ble_datapoints (Demo.mh Demo.service)
             Demo.json_loads_without_rssi
             Demo.to_datetime (Some 0%Z) (Some 40%Z) (Some "env-1") None
             false false false default_tag_device_types
             default_anchor_device_types 100 None Demo.no_credentials)
  = Raise (TypeError
      "float() argument must be a string or a number, not 'NoneType'").
Proof.
  apply fetch_ble_datapoints_without_rssi
    with (env := "env-1") (tag_assignments_df := Demo.tag_table)
         (anchor_assignments_df := Demo.anchor_table)
         (before := []) (after := [Demo.datapoint_2; Demo.datapoint_3])
         (datum := Demo.datapoint_1)
         (file := File.Build (Some "{anchor_id: dev-a1, rssi: -67}"))
         (s := "{anchor_id: dev-a1, rssi: -67}")
         (p := Payload.Build (Some "dev-a1") None); try run.
  - intros d [].
  - discriminate.
Defined.

Lemma fetch_ble_datapoints_queries_witness :
  queries (fetch_ble_datapoints (Demo.mh Demo.service) Demo.json_loads
             Demo.to_datetime (Some 0%Z) (Some 40%Z) None (Some "Classroom")
             false false false default_tag_device_types
             default_anchor_device_types 100 None Demo.no_credentials)
  = [environment_request "Classroom";
     assignment_request "env-1" 100;
     assignment_request "env-1" 100;
     datapoint_request
       [Query.Build "source" "IN" (values [Str "tag-asg-1"]);
        Query.Build "timestamp" "GTE" (value "0");
        Query.Build "timestamp" "LTE" (value "40")] 100].
Proof.
  rewrite fetch_ble_datapoints_queries
    with (env := "env-1") (tag_assignments_df := Demo.tag_table)
         (anchor_assignments_df := Demo.anchor_table); run.
Defined.

Lemma datapoint_query_sources_witness :
  NoDup (unique (index Demo.tag_table))
  /\ (In (cell_of (Some "tag-asg-1")) (unique (index Demo.tag_table))
      <-> In (Some "tag-asg-1")
            (map Assignment.assignment_id
               (kept_assignments (Demo.mh Demo.service) Demo.assignments
                  (Some 0%Z) (Some 40%Z) default_tag_device_types))).
Proof.
  destruct datapoint_query_sources
    with (mh := Demo.mh Demo.service) (start := Some 0%Z) (end_ := Some 40%Z)
         (tag_device_types := default_tag_device_types) (chunk_size := 100%Z)
         (client := @None Client) (creds := Demo.no_credentials)
         (env := "env-1") (tag_assignments_df := Demo.tag_table)
         (assignments := Demo.assignments)
    as [_ [Hnd Hin]]; try run.
  split; [exact Hnd|exact (Hin (Some "tag-asg-1"))].
Defined.

Lemma fetch_ble_datapoints_shape_witness :
  exists df,
    outcome (fetch_ble_datapoints (Demo.mh Demo.service) Demo.json_loads
               Demo.to_datetime (Some 0%Z) (Some 40%Z) None (Some "Classroom")
               true false true default_tag_device_types
               default_anchor_device_types 100 None Demo.no_credentials) = Ok df
    /\ columns df
       = ["timestamp"; "tag_assignment_id"; "tag_device_id"; "tag_name";
          "anchor_assignment_id"; "anchor_device_id"; "anchor_name"; "rssi"]
    /\ forall r, In r (rows df) -> List.length (snd r) = 8%nat.
Proof.
  exists {| index_name := Some "data_id";
            columns := return_columns true false true;
            rows := table_rows Demo.json_loads true false true
                      [Demo.tag_assignment] [Demo.anchor_assignment_1]
                      Demo.datapoints
                      [Timestamp 10; Timestamp 20; Timestamp 30] |}.
  split; [run|].
  refine (proj2 (fetch_ble_datapoints_shape (Demo.mh Demo.service) Demo.json_loads
                   Demo.to_datetime (Some 0%Z) (Some 40%Z) None (Some "Classroom")
                   true false true default_tag_device_types
                   default_anchor_device_types 100 None Demo.no_credentials
                   "env-1" Demo.assignments Demo.datapoints _ _ _ _ _)); run.
Defined.

Lemma fetch_ble_datapoints_row_values_witness :
  exists datum x,
    In datum Demo.datapoints
    /\ Str "dp-3" = cell_of (Datapoint.data_id datum)
    /\ Demo.to_datetime (cell_of (Datapoint.timestamp datum)) = Ok (Timestamp 30)
    /\ Float Demo.rssi_67 = Float x.
Proof.
  destruct fetch_ble_datapoints_row_values
    with (mh := Demo.mh Demo.service) (json_loads := Demo.json_loads)
         (to_datetime := Demo.to_datetime) (start := Some 0%Z) (end_ := Some 40%Z)
         (environment_id := @None string) (environment_name := Some "Classroom")
         (return_tag_name := false) (return_tag_tag_id := false)
         (return_anchor_name := false)
         (tag_device_types := default_tag_device_types)
         (anchor_device_types := default_anchor_device_types)
         (chunk_size := 100%Z) (client := @None Client)
         (creds := Demo.no_credentials) (env := "env-1")
         (assignments := Demo.assignments) (result_ := Demo.datapoints)
         (df := {| index_name := Some "data_id";
                   columns := return_columns false false false;
                   rows := table_rows Demo.json_loads false false false
                             [Demo.tag_assignment] [Demo.anchor_assignment_1]
                             Demo.datapoints
                             [Timestamp 10; Timestamp 20; Timestamp 30] |})
         (r := (Str "dp-3",
                [Timestamp 30; Str "tag-asg-1"; Str "dev-t1"; NaN; NaN;
                 Float Demo.rssi_67]))
    as [datum [file [s [p [src [x H]]]]]]; try run.
  - vm_compute. right. right. now left.
  - exists datum, x.
    destruct H as [H1 [H2 [H3 [_ [_ [_ [_ [_ [_ [H4 _]]]]]]]]]].
    repeat split; assumption.
Defined.

Lemma fetch_ble_datapoints_row_number_witness :
  exists df,
    outcome (fetch_ble_datapoints (Demo.mh Demo.service) Demo.json_loads
               Demo.to_datetime None None (Some "env-1") None
               false false false default_tag_device_types
               default_anchor_device_types 100 None Demo.no_credentials) = Ok df
    /\ List.length (rows df) = 4%nat.
Proof.
  exists {| index_name := Some "data_id";
            columns := return_columns false false false;
            rows := table_rows Demo.json_loads false false false
                      [Demo.tag_assignment]
                      [Demo.anchor_assignment_1; Demo.anchor_assignment_2]
                      Demo.datapoints
                      [Timestamp 10; Timestamp 20; Timestamp 30] |}.
  split; [run|].
  rewrite fetch_ble_datapoints_row_number
    with (mh := Demo.mh Demo.service) (json_loads := Demo.json_loads)
         (to_datetime := Demo.to_datetime) (start := @None Z) (end_ := @None Z)
         (environment_id := Some "env-1") (environment_name := @None string)
         (return_tag_name := false) (return_tag_tag_id := false)
         (return_anchor_name := false)
         (tag_device_types := default_tag_device_types)
         (anchor_device_types := default_anchor_device_types)
         (chunk_size := 100%Z) (client := @None Client)
         (creds := Demo.no_credentials) (env := "env-1")
         (assignments := Demo.assignments) (result_ := Demo.datapoints); run.
Defined.

Lemma fetch_ble_datapoints_every_anchor_link_witness :
  exists r,
    fst r = Str "dp-1"
    /\ cell_at (return_columns false false false) "anchor_assignment_id" (snd r)
       = Str "anc-asg-2".
Proof.
  destruct fetch_ble_datapoints_every_anchor_link
    with (mh := Demo.mh Demo.service) (json_loads := Demo.json_loads)
         (to_datetime := Demo.to_datetime) (start := @None Z) (end_ := @None Z)
         (environment_id := Some "env-1") (environment_name := @None string)
         (return_tag_name := false) (return_tag_tag_id := false)
         (return_anchor_name := false)
         (tag_device_types := default_tag_device_types)
         (anchor_device_types := default_anchor_device_types)
         (chunk_size := 100%Z) (client := @None Client)
         (creds := Demo.no_credentials) (env := "env-1")
         (assignments := Demo.assignments) (result_ := Demo.datapoints)
         (df := {| index_name := Some "data_id";
                   columns := return_columns false false false;
                   rows := table_rows Demo.json_loads false false false
                             [Demo.tag_assignment]
                             [Demo.anchor_assignment_1; Demo.anchor_assignment_2]
                             Demo.datapoints
                             [Timestamp 10; Timestamp 20; Timestamp 30] |})
         (datum := Demo.datapoint_1) (a := Demo.anchor_assignment_2)
    as [r [_ [Hfst [Hid _]]]]; try run.
  - now left.
  - vm_compute. right. now left.
  - now right.
  - exists r. split; [exact Hfst|exact Hid].
Defined.

Lemma datapoint_query_closed_at_start_witness :
  forallb (timestamp_passes Demo.datetime_of_string 0)
    (datapoint_query_list (Demo.mh Demo.service) [Str "tag-asg-1"]
       (Some 0%Z) (Some 40%Z)) = true.
Proof.
  refine (proj1 (proj2
            (datapoint_query_closed_at_start (Demo.mh Demo.service)
               [Str "tag-asg-1"] 0 (Some 40%Z) Demo.datetime_of_string _ _))).
  - run.
  - intros e H. injection H as <-. split; [run|lia].
Defined.

Lemma fetch_ble_datapoints_environment_without_id_witness :
  outcome (fetch_ble_datapoints (Demo.mh Demo.unregistered_service)
             Demo.json_loads Demo.to_datetime None None None (Some "Classroom")
             false false false default_tag_device_types
             default_anchor_device_types 100 None Demo.no_credentials)
  = Raise (ValueError "Must specify environment").
Proof.
  refine (proj1
            (fetch_ble_datapoints_environment_without_id
               (Demo.mh Demo.unregistered_service) Demo.json_loads
               Demo.to_datetime None None false false false
               default_tag_device_types default_anchor_device_types 100 None
               Demo.no_credentials "Classroom" (Environment.Build None) _ _));
    reflexivity.
Defined.

Lemma fetch_ble_datapoints_assignment_search_fails_witness :
  outcome (fetch_ble_datapoints (Demo.mh Demo.failing_service)
             Demo.json_loads Demo.to_datetime None None None (Some "Classroom")
             false false false default_tag_device_types
             default_anchor_device_types 100 None Demo.no_credentials)
  = Raise (ClientError "timeout")
  /\ queries (fetch_ble_datapoints (Demo.mh Demo.failing_service)
                Demo.json_loads Demo.to_datetime None None None (Some "Classroom")
                false false false default_tag_device_types
                default_anchor_device_types 100 None Demo.no_credentials)
     = [environment_request "Classroom"; assignment_request "env-1" 100].
Proof.
  refine (fetch_ble_datapoints_assignment_search_fails
            (Demo.mh Demo.failing_service) Demo.json_loads Demo.to_datetime
            None None false false false default_tag_device_types
            default_anchor_device_types 100 None Demo.no_credentials
            None (Some "Classroom") "env-1" (ClientError "timeout") _ _);
    reflexivity.
Defined.
